(** * Trading Confluence Scanner: the trend and pattern detection engine

    A shallow embedding of the detection engine of the scanner's backend
    (section "Trend + pattern detection" of the server source):
    [ema], [detectTrendHTF], [findPivots], [approxEqual], the four pattern
    detectors, [buildPatternSignal] and [detectPatternWithConfluence].

    Numbers.  A JavaScript number is an IEEE 754 binary64 value, so prices
    are the kernel's primitive floats: [+], [-], [*], [/], [<] and [<=]
    round and compare exactly as the engine's own operators do, NaN
    included.  Array indices and lengths are [nat].

    Faults.  Reading a property of an array slot that does not exist
    ([candles[j].high] with [j] out of range) raises a TypeError; such
    reads are written in the [Js.result] monad, and the theorems show the
    fault is never reached.  A bare out-of-range read ([xs[i]]) yields
    [undefined], which behaves as NaN in arithmetic and comparisons. *)

From Stdlib Require Import String List ZArith Bool Lia Floats Sorted Permutation
  DecimalString.
Import ListNotations.

Set Warnings "-inexact-float".

(* ================================================================== *)
(** * Definitions *)
(* ================================================================== *)

(** ** The JavaScript fragment the engine uses *)

Module Js.

(** Outcome of a computation that may raise a TypeError. *)
Inductive result (A : Type) : Type :=
| Ok (a : A)
| TypeError.
Arguments Ok {A} a.
Arguments TypeError {A}.

Definition bind {A B : Type} (m : result A) (f : A -> result B) : result B :=
  match m with
  | Ok a => f a
  | TypeError => TypeError
  end.

(** [a > b] and [a >= b] on numbers. *)
Definition gt (a b : float) : bool := (b <? a)%float.
Definition ge (a b : float) : bool := (b <=? a)%float.

(** Truthiness of a number: [0], [-0] and [NaN] are falsy. *)
Definition truthy (x : float) : bool := negb (x =? 0)%float && negb (is_nan x).

(** [x || d] on a number [x]. *)
Definition orElse (x d : float) : float := if truthy x then x else d.

(** [Math.max(x, y)] and [Math.min(x, y)]: NaN is contagious and [-0]
    is smaller than [+0]. *)
Definition max (x y : float) : float :=
  if is_nan x || is_nan y then nan
  else if (x <? y)%float then y
  else if (y <? x)%float then x
  else if get_sign x then y else x.

Definition min (x y : float) : float :=
  if is_nan x || is_nan y then nan
  else if (x <? y)%float then x
  else if (y <? x)%float then y
  else if get_sign x then x else y.

(** The number denoted by an array length or a small integer literal
    (exact below 2^53). *)
Definition num (n : nat) : float := of_uint63 (Uint63.of_Z (Z.of_nat n)).

(** [xs.slice(-n)]: the last [n] elements. *)
Definition sliceLast {A : Type} (n : nat) (xs : list A) : list A :=
  skipn (length xs - n) xs.

(** The index sequence of [for (i = hi; i >= lo; i--)]. *)
Definition downTo (hi lo : nat) : list nat := rev (seq lo (S hi - lo)).

(** [Math.min(...xs)] and [Math.max(...xs)] on a non-empty list of
    indices. *)
Definition minOf (x : nat) (xs : list nat) : nat := fold_left Nat.min xs x.
Definition maxOf (x : nat) (xs : list nat) : nat := fold_left Nat.max xs x.

End Js.

Notation "x <- m ;; k" := (Js.bind m (fun x => k))
  (at level 61, m at next level, right associativity).
Notation "' p <- m ;; k" := (Js.bind m (fun x => let 'p := x in k))
  (at level 61, p pattern, m at next level, right associativity).

Import Js.

(** ** Data model *)

(** One OHLC bar.  [time] is the bar's [Date], as milliseconds since the
    epoch. *)
Record Candle : Type := mkCandle {
  time : Z;
  open : float;
  high : float;
  low : float;
  close : float
}.

(** The object returned by [detectTrendHTF]. *)
Record Trend : Type := mkTrend {
  trend : string;
  reason : string
}.

(** The object returned by a pattern detector: [type] and the [indices]
    object, kept as its key/value pairs in insertion order (the order
    [Object.values] enumerates). *)
Record Pattern : Type := mkPattern {
  type : string;
  indices : list (string * nat)
}.

(** The object returned by [buildPatternSignal]. *)
Record Signal : Type := mkSignal {
  direction : string;
  pattern : string;
  timeframe : string;
  from : option string;
  to : option string
}.

(** [candles[j].f]: a TypeError when slot [j] does not exist. *)
Definition field (candles : list Candle) (j : nat) (f : Candle -> float) : result float :=
  match nth_error candles j with
  | Some c => Ok (f c)
  | None => TypeError
  end.

(** ** Pivot extraction: [findPivots] *)

(** The inner loop [for (j = i - lookback; j <= i + lookback; j++)], over
    its index sequence [js], threading the two flags. *)
Fixpoint pivotWindow (candles : list Candle) (i : nat) (js : list nat)
    (isHigh isLow : bool) : result (bool * bool) :=
  match js with
  | [] => Ok (isHigh, isLow)
  | j :: js' =>
      hj <- field candles j high ;;
      hi <- field candles i high ;;
      let isHigh' := if gt hj hi then false else isHigh in
      lj <- field candles j low ;;
      li <- field candles i low ;;
      let isLow' := if (lj <? li)%float then false else isLow in
      pivotWindow candles i js' isHigh' isLow'
  end.

(** The outer loop [for (i = lookback; i < candles.length - lookback; i++)],
    over its index sequence [idxs], threading the two output arrays. *)
Fixpoint pivotLoop (candles : list Candle) (lookback : nat) (idxs : list nat)
    (highs lows : list nat) : result (list nat * list nat) :=
  match idxs with
  | [] => Ok (highs, lows)
  | i :: idxs' =>
      '(isHigh, isLow) <-
        pivotWindow candles i (seq (i - lookback) (2 * lookback + 1)) true true ;;
      let highs' := if isHigh then highs ++ [i] else highs in
      let lows' := if isLow then lows ++ [i] else lows in
      pivotLoop candles lookback idxs' highs' lows'
  end.

(** Every caller passes [lookback] (always 2); the default of 3 is never
    used. *)
Definition findPivots (candles : list Candle) (lookback : nat)
    : result (list nat * list nat) :=
  pivotLoop candles lookback
    (seq lookback (length candles - lookback - lookback)) [] [].

(** ** The shared tolerance test: [approxEqual] *)

(** Every caller passes [tolerance]; the default of 0.01 is never used. *)
Definition approxEqual (a b tolerance : float) : bool :=
  let diff := abs (a - b) in
  let avg := orElse ((abs a + abs b) / 2) 1 in
  (diff / avg <=? tolerance)%float.

(** ** Double top: [detectMTop] *)

(** The body of [for (let i = lastHighs.length - 2; i >= 1; i--)], over
    its index sequence.  An index read outside [lastHighs] is [undefined],
    every comparison with it is false, so [midLows] is empty and the
    iteration is skipped. *)
Fixpoint mTopLoop (candles : list Candle) (lows lastHighs : list nat)
    (idxs : list nat) : result (option Pattern) :=
  match idxs with
  | [] => Ok None
  | i :: idxs' =>
      match nth_error lastHighs (i - 1), nth_error lastHighs i with
      | Some h1Idx, Some h2Idx =>
          let midLows := filter (fun x => (h1Idx <? x) && (x <? h2Idx)) lows in
          match midLows with
          | [] => mTopLoop candles lows lastHighs idxs'
          | lIdx :: _ =>
              h1 <- field candles h1Idx high ;;
              h2 <- field candles h2Idx high ;;
              low <- field candles lIdx low ;;
              if negb (approxEqual h1 h2 0.015) then
                mTopLoop candles lows lastHighs idxs'
              else
                let dropPerc := ((max h1 h2 - low) / max h1 h2)%float in
                if (dropPerc <? 0.01)%float then
                  mTopLoop candles lows lastHighs idxs'
                else
                  Ok (Some {| type := "M-top";
                              indices := [("h1Idx", h1Idx); ("h2Idx", h2Idx);
                                          ("lIdx", lIdx)]%string |})
          end
      | _, _ => mTopLoop candles lows lastHighs idxs'
      end
  end.

Definition detectMTop (candles : list Candle) : result (option Pattern) :=
  '(highs, lows) <- findPivots candles 2 ;;
  if (length highs <? 2) || (length lows <? 1) then Ok None
  else
    let lastHighs := sliceLast 4 highs in
    mTopLoop candles lows lastHighs (downTo (length lastHighs - 2) 1).

(** ** Double bottom: [detectInvertedM] *)

Fixpoint invertedMLoop (candles : list Candle) (highs lastLows : list nat)
    (idxs : list nat) : result (option Pattern) :=
  match idxs with
  | [] => Ok None
  | i :: idxs' =>
      match nth_error lastLows (i - 1), nth_error lastLows i with
      | Some l1Idx, Some l2Idx =>
          let midHighs := filter (fun x => (l1Idx <? x) && (x <? l2Idx)) highs in
          match midHighs with
          | [] => invertedMLoop candles highs lastLows idxs'
          | hIdx :: _ =>
              l1 <- field candles l1Idx low ;;
              l2 <- field candles l2Idx low ;;
              high <- field candles hIdx high ;;
              if negb (approxEqual l1 l2 0.015) then
                invertedMLoop candles highs lastLows idxs'
              else
                let risePerc := ((high - min l1 l2) / min l1 l2)%float in
                if (risePerc <? 0.01)%float then
                  invertedMLoop candles highs lastLows idxs'
                else
                  Ok (Some {| type := "Inverted M";
                              indices := [("l1Idx", l1Idx); ("l2Idx", l2Idx);
                                          ("hIdx", hIdx)]%string |})
          end
      | _, _ => invertedMLoop candles highs lastLows idxs'
      end
  end.

Definition detectInvertedM (candles : list Candle) : result (option Pattern) :=
  '(highs, lows) <- findPivots candles 2 ;;
  if (length lows <? 2) || (length highs <? 1) then Ok None
  else
    let lastLows := sliceLast 4 lows in
    invertedMLoop candles highs lastLows (downTo (length lastLows - 2) 1).

(** ** Head and shoulders: [detectHeadAndShoulders] *)

(** [candles[xs[i]].f]: [xs[i]] is [undefined] out of range, and so is
    [candles[undefined]], whose property read raises. *)
Definition fieldAt (candles : list Candle) (xs : list nat) (i : nat)
    (f : Candle -> float) : result (nat * float) :=
  match nth_error xs i with
  | Some idx => v <- field candles idx f ;; Ok (idx, v)
  | None => TypeError
  end.

(** The body of [for (let i = lastHighs.length - 3; i >= 0; i--)]. *)
Fixpoint headAndShouldersLoop (candles : list Candle) (lows lastHighs : list nat)
    (idxs : list nat) : result (option Pattern) :=
  match idxs with
  | [] => Ok None
  | i :: idxs' =>
      '(lsIdx, ls) <- fieldAt candles lastHighs i high ;;
      '(headIdx, head) <- fieldAt candles lastHighs (i + 1) high ;;
      '(rsIdx, rs) <- fieldAt candles lastHighs (i + 2) high ;;
      if negb (gt head (ls * 1.01) && gt head (rs * 1.01)) then
        headAndShouldersLoop candles lows lastHighs idxs'
      else if negb (approxEqual ls rs 0.02) then
        headAndShouldersLoop candles lows lastHighs idxs'
      else
        let neckLows := filter (fun x => (lsIdx <? x) && (x <? rsIdx)) lows in
        if length neckLows <? 2 then
          headAndShouldersLoop candles lows lastHighs idxs'
        else
          '(n1Idx, n1) <- fieldAt candles neckLows 0 low ;;
          '(n2Idx, n2) <- fieldAt candles neckLows (length neckLows - 1) low ;;
          if negb (approxEqual n1 n2 0.02) then
            headAndShouldersLoop candles lows lastHighs idxs'
          else
            Ok (Some {| type := "Head & Shoulders";
                        indices := [("lsIdx", lsIdx); ("headIdx", headIdx);
                                    ("rsIdx", rsIdx); ("n1Idx", n1Idx);
                                    ("n2Idx", n2Idx)]%string |})
  end.

(** [lastHighs.length - 3] is non-negative where the loop is reached, so
    the index sequence [length - 3, ..., 0] is [downTo (length - 3) 0]. *)
Definition detectHeadAndShoulders (candles : list Candle) : result (option Pattern) :=
  '(highs, lows) <- findPivots candles 2 ;;
  if (length highs <? 3) || (length lows <? 2) then Ok None
  else
    let lastHighs := sliceLast 6 highs in
    if length lastHighs <? 3 then Ok None
    else headAndShouldersLoop candles lows lastHighs
           (downTo (length lastHighs - 3) 0).

(** ** Inverse head and shoulders: [detectInverseHeadAndShoulders] *)

Fixpoint inverseHeadAndShouldersLoop (candles : list Candle)
    (highs lastLows : list nat) (idxs : list nat) : result (option Pattern) :=
  match idxs with
  | [] => Ok None
  | i :: idxs' =>
      '(lsIdx, ls) <- fieldAt candles lastLows i low ;;
      '(headIdx, head) <- fieldAt candles lastLows (i + 1) low ;;
      '(rsIdx, rs) <- fieldAt candles lastLows (i + 2) low ;;
      if negb ((head <? ls * 0.99)%float && (head <? rs * 0.99)%float) then
        inverseHeadAndShouldersLoop candles highs lastLows idxs'
      else if negb (approxEqual ls rs 0.02) then
        inverseHeadAndShouldersLoop candles highs lastLows idxs'
      else
        let neckHighs := filter (fun x => (lsIdx <? x) && (x <? rsIdx)) highs in
        if length neckHighs <? 2 then
          inverseHeadAndShouldersLoop candles highs lastLows idxs'
        else
          '(n1Idx, n1) <- fieldAt candles neckHighs 0 high ;;
          '(n2Idx, n2) <- fieldAt candles neckHighs (length neckHighs - 1) high ;;
          if negb (approxEqual n1 n2 0.02) then
            inverseHeadAndShouldersLoop candles highs lastLows idxs'
          else
            Ok (Some {| type := "Inverse Head & Shoulders";
                        indices := [("lsIdx", lsIdx); ("headIdx", headIdx);
                                    ("rsIdx", rsIdx); ("n1Idx", n1Idx);
                                    ("n2Idx", n2Idx)]%string |})
  end.

Definition detectInverseHeadAndShoulders (candles : list Candle)
    : result (option Pattern) :=
  '(highs, lows) <- findPivots candles 2 ;;
  if (length lows <? 3) || (length highs <? 2) then Ok None
  else
    let lastLows := sliceLast 6 lows in
    if length lastLows <? 3 then Ok None
    else inverseHeadAndShouldersLoop candles highs lastLows
           (downTo (length lastLows - 3) 0).

(** ** Trend classification: [ema] and [detectTrendHTF] *)

(** The loop [for (let i = period; i < values.length; i++)] of [ema], over
    its index sequence, threading [prevEma] and the [result] array. *)
Fixpoint emaLoop (values : list float) (k : float) (idxs : list nat)
    (prevEma : float) (result : list float) : list float :=
  match idxs with
  | [] => result
  | i :: idxs' =>
      let prevEma' := (nth i values nan * k + prevEma * (1 - k))%float in
      emaLoop values k idxs' prevEma' (result ++ [prevEma'])
  end.

Definition ema (values : list float) (period : nat) : list float :=
  if length values <? period then []
  else
    let k := (2 / (num period + 1))%float in
    let prevEma :=
      (fold_left (fun sum v => sum + v) (firstn period values) 0 / num period)%float in
    emaLoop values k (seq period (length values - period)) prevEma [prevEma].

(** [candles] is [None] for a [null] or [undefined] argument. *)
Definition detectTrendHTF (candles : option (list Candle)) : Trend :=
  match candles with
  | None => {| trend := "neutral"; reason := "Not enough data" |}
  | Some candles =>
      if length candles <? 60 then
        {| trend := "neutral"; reason := "Not enough data" |}
      else
        let closes := map close candles in
        let ema50 := ema closes 50 in
        let ema200 := ema closes 200 in
        if length ema200 =? 0 then
          {| trend := "neutral"; reason := "Not enough EMA data" |}
        else
          let lastClose := nth (length closes - 1) closes nan in
          let lastEma50 := nth (length ema50 - 1) ema50 nan in
          let lastEma200 := nth (length ema200 - 1) ema200 nan in
          if gt lastClose lastEma50 && gt lastEma50 lastEma200 then
            {| trend := "bullish"; reason := "Close > EMA50 > EMA200" |}
          else if (lastClose <? lastEma50)%float && (lastEma50 <? lastEma200)%float then
            {| trend := "bearish"; reason := "Close < EMA50 < EMA200" |}
          else
            {| trend := "sideways"; reason := "Mixed EMAs" |}
  end.

(** The exponential moving average as the specification words it: the
    value at position [period - 1 + n] of the series is the simple average
    of the first [period] values for [n = 0], and afterwards the current
    value weighted by [k = 2 / (period + 1)] plus the previous average
    weighted by [1 - k]. *)
Fixpoint emaSpec (values : list float) (period : nat) (n : nat) : float :=
  match n with
  | O => (fold_left add (firstn period values) 0 / num period)%float
  | S n' =>
      let k := (2 / (num period + 1))%float in
      (nth (period + n') values nan * k + emaSpec values period n' * (1 - k))%float
  end.

(** The tolerance rule as the specification words it, for a floor
    [epsilon]: |a - b| / max(avg(|a|, |b|), epsilon) <= t. *)
Definition approxEqualSpec (epsilon a b t : float) : bool :=
  (abs (a - b) / max ((abs a + abs b) / 2) epsilon <=? t)%float.

(** ** Signal construction and the confluence gate *)

Section Signals.

(** [Date.prototype.toISOString], on the instant of a candle. *)
Variable toISOString : Z -> string.

(** Every value of an [indices] object is an array index, so the
    [Number.isInteger] filter keeps all of them. *)
Definition buildPatternSignal (direction tfLabel : string)
    (patternResult : Pattern) (candles : list Candle) : Signal :=
  let indexValues := map snd (indices patternResult) in
  let '(from, to) :=
    match indexValues with
    | [] => (None, None)
    | v :: vs =>
        let startIdx := minOf v vs in
        let endIdx := maxOf v vs in
        (option_map time (nth_error candles startIdx),
         option_map time (nth_error candles endIdx))
    end in
  {| direction := direction;
     pattern := type patternResult;
     timeframe := tfLabel;
     from := option_map toISOString from;
     to := option_map toISOString to |}.

(** [a || b] on two detector results, [null] being the only falsy one. *)
Definition orPattern (a b : option Pattern) : option Pattern :=
  match a with
  | Some p => Some p
  | None => b
  end.

(** Truthiness of a detector result. *)
Definition isPattern (p : option Pattern) : bool :=
  match p with
  | Some _ => true
  | None => false
  end.

(** [return buildPatternSignal(direction, tfLabel, p, candles)];
    [buildPatternSignal] reads [p.indices], a TypeError on [null]. *)
Definition returnSignal (direction tfLabel : string) (p : option Pattern)
    (candles : list Candle) : result (option Signal) :=
  match p with
  | Some p => Ok (Some (buildPatternSignal direction tfLabel p candles))
  | None => TypeError
  end.

Definition detectPatternWithConfluence (candles : list Candle)
    (tfLabel : string) (dayTrend weekTrend : Trend) : result (option Signal) :=
  mTop <- detectMTop candles ;;
  invM <- detectInvertedM candles ;;
  hs <- detectHeadAndShoulders candles ;;
  invHs <- detectInverseHeadAndShoulders candles ;;
  let isBearishHTF :=
    (trend dayTrend =? "bearish")%string && (trend weekTrend =? "bearish")%string in
  let isBullishHTF :=
    (trend dayTrend =? "bullish")%string && (trend weekTrend =? "bullish")%string in
  if isBearishHTF && isPattern (orPattern mTop hs) then
    returnSignal "bearish" tfLabel (orPattern mTop hs) candles
  else if isBullishHTF && isPattern (orPattern invM invHs) then
    returnSignal "bullish" tfLabel (orPattern invM invHs) candles
  else Ok None.

End Signals.

(** ** Vocabulary of the statements *)

(** The price [f] of candle [j] ([NaN] outside the series, as a bare read
    of [undefined] behaves). *)
Definition priceAt (f : Candle -> float) (candles : list Candle) (j : nat) : float :=
  match nth_error candles j with
  | Some c => f c
  | None => nan
  end.

(** A candle whose high and low are numbers. *)
Definition priced (c : Candle) : Prop :=
  is_nan (high c) = false /\ is_nan (low c) = false.

(** The flags [findPivots] computes for index [i], as one test over the
    window [i - lookback .. i + lookback]. *)
Definition isHighAt (candles : list Candle) (lookback i : nat) : bool :=
  forallb (fun j => negb (gt (priceAt high candles j) (priceAt high candles i)))
          (seq (i - lookback) (2 * lookback + 1)).

Definition isLowAt (candles : list Candle) (lookback i : nat) : bool :=
  forallb (fun j => negb (priceAt low candles j <? priceAt low candles i)%float)
          (seq (i - lookback) (2 * lookback + 1)).

(** The contract of the pivot extractor: [i] has a full window and its
    high is [>=] (its low is [<=]) every high (low) of the window. *)
Definition HighPivot (candles : list Candle) (lookback i : nat) : Prop :=
  lookback <= i < length candles - lookback /\
  forall j, i - lookback <= j <= i + lookback ->
            ge (priceAt high candles i) (priceAt high candles j) = true.

Definition LowPivot (candles : list Candle) (lookback i : nat) : Prop :=
  lookback <= i < length candles - lookback /\
  forall j, i - lookback <= j <= i + lookback ->
            (priceAt low candles i <=? priceAt low candles j)%float = true.

(** What the window loop tests literally: no candle of the window has a
    strictly higher high (a strictly lower low) than candle [i]. *)
Definition NoHigherHigh (candles : list Candle) (lookback i : nat) : Prop :=
  forall j, i - lookback <= j <= i + lookback ->
            gt (priceAt high candles j) (priceAt high candles i) = false.

Definition NoLowerLow (candles : list Candle) (lookback i : nat) : Prop :=
  forall j, i - lookback <= j <= i + lookback ->
            (priceAt low candles j <? priceAt low candles i)%float = false.

(** ** One iteration of each detector, as a function of the loop index *)

(** The first index of [idxs], in order, at which [step] yields a match:
    the shape shared by the four detector loops ([continue] moves on,
    [return] stops). *)
Fixpoint firstMatch {A : Type} (step : nat -> option A) (idxs : list nat) : option A :=
  match idxs with
  | [] => None
  | i :: idxs' =>
      match step i with
      | Some p => Some p
      | None => firstMatch step idxs'
      end
  end.

Definition mTopAt (candles : list Candle) (lows lastHighs : list nat) (i : nat)
    : option Pattern :=
  match nth_error lastHighs (i - 1), nth_error lastHighs i with
  | Some h1Idx, Some h2Idx =>
      match filter (fun x => (h1Idx <? x) && (x <? h2Idx)) lows with
      | [] => None
      | lIdx :: _ =>
          let h1 := priceAt high candles h1Idx in
          let h2 := priceAt high candles h2Idx in
          let low := priceAt low candles lIdx in
          if negb (approxEqual h1 h2 0.015) then None
          else if ((max h1 h2 - low) / max h1 h2 <? 0.01)%float then None
          else Some {| type := "M-top";
                       indices := [("h1Idx", h1Idx); ("h2Idx", h2Idx);
                                   ("lIdx", lIdx)]%string |}
      end
  | _, _ => None
  end.

Definition invertedMAt (candles : list Candle) (highs lastLows : list nat) (i : nat)
    : option Pattern :=
  match nth_error lastLows (i - 1), nth_error lastLows i with
  | Some l1Idx, Some l2Idx =>
      match filter (fun x => (l1Idx <? x) && (x <? l2Idx)) highs with
      | [] => None
      | hIdx :: _ =>
          let l1 := priceAt low candles l1Idx in
          let l2 := priceAt low candles l2Idx in
          let high := priceAt high candles hIdx in
          if negb (approxEqual l1 l2 0.015) then None
          else if ((high - min l1 l2) / min l1 l2 <? 0.01)%float then None
          else Some {| type := "Inverted M";
                       indices := [("l1Idx", l1Idx); ("l2Idx", l2Idx);
                                   ("hIdx", hIdx)]%string |}
      end
  | _, _ => None
  end.

Definition headAndShouldersAt (candles : list Candle) (lows lastHighs : list nat)
    (i : nat) : option Pattern :=
  match nth_error lastHighs i, nth_error lastHighs (i + 1),
        nth_error lastHighs (i + 2) with
  | Some lsIdx, Some headIdx, Some rsIdx =>
      let ls := priceAt high candles lsIdx in
      let head := priceAt high candles headIdx in
      let rs := priceAt high candles rsIdx in
      if negb (gt head (ls * 1.01) && gt head (rs * 1.01)) then None
      else if negb (approxEqual ls rs 0.02) then None
      else
        let neckLows := filter (fun x => (lsIdx <? x) && (x <? rsIdx)) lows in
        if length neckLows <? 2 then None
        else
          match nth_error neckLows 0, nth_error neckLows (length neckLows - 1) with
          | Some n1Idx, Some n2Idx =>
              if negb (approxEqual (priceAt low candles n1Idx)
                                   (priceAt low candles n2Idx) 0.02) then None
              else Some {| type := "Head & Shoulders";
                           indices := [("lsIdx", lsIdx); ("headIdx", headIdx);
                                       ("rsIdx", rsIdx); ("n1Idx", n1Idx);
                                       ("n2Idx", n2Idx)]%string |}
          | _, _ => None
          end
  | _, _, _ => None
  end.

Definition inverseHeadAndShouldersAt (candles : list Candle)
    (highs lastLows : list nat) (i : nat) : option Pattern :=
  match nth_error lastLows i, nth_error lastLows (i + 1),
        nth_error lastLows (i + 2) with
  | Some lsIdx, Some headIdx, Some rsIdx =>
      let ls := priceAt low candles lsIdx in
      let head := priceAt low candles headIdx in
      let rs := priceAt low candles rsIdx in
      if negb ((head <? ls * 0.99)%float && (head <? rs * 0.99)%float) then None
      else if negb (approxEqual ls rs 0.02) then None
      else
        let neckHighs := filter (fun x => (lsIdx <? x) && (x <? rsIdx)) highs in
        if length neckHighs <? 2 then None
        else
          match nth_error neckHighs 0, nth_error neckHighs (length neckHighs - 1) with
          | Some n1Idx, Some n2Idx =>
              if negb (approxEqual (priceAt high candles n1Idx)
                                   (priceAt high candles n2Idx) 0.02) then None
              else Some {| type := "Inverse Head & Shoulders";
                           indices := [("lsIdx", lsIdx); ("headIdx", headIdx);
                                       ("rsIdx", rsIdx); ("n1Idx", n1Idx);
                                       ("n2Idx", n2Idx)]%string |}
          | _, _ => None
          end
  | _, _, _ => None
  end.

(** ** Vocabulary of the detector statements *)

(** [m] is the earliest pivot of [pivots] strictly between [a] and [b]. *)
Definition EarliestBetween (pivots : list nat) (a b m : nat) : Prop :=
  In m pivots /\ a < m < b /\
  forall x, In x pivots -> a < x < b -> m <= x.

(** The validity test of a head-and-shoulders group as the code runs it:
    the head is strictly above 1.01 times each shoulder, the shoulders pass
    the tolerance test at 0.02, the low pivots strictly between the
    shoulders are [n1], ..., [n2] (at least two of them), and the lows of
    [n1] and [n2] pass the tolerance test at 0.02. *)
Definition HeadAndShouldersGroup (candles : list Candle) (lows : list nat)
    (ls head rs n1 n2 : nat) : Prop :=
  gt (priceAt high candles head) (priceAt high candles ls * 1.01) = true /\
  gt (priceAt high candles head) (priceAt high candles rs * 1.01) = true /\
  approxEqual (priceAt high candles ls) (priceAt high candles rs) 0.02 = true /\
  (exists mid, filter (fun x => (ls <? x) && (x <? rs)) lows = n1 :: mid ++ [n2]) /\
  approxEqual (priceAt low candles n1) (priceAt low candles n2) 0.02 = true.

(** A valid group on the three consecutive entries of [lastHighs] that
    start at position [i]. *)
Definition GroupAt (candles : list Candle) (lows lastHighs : list nat)
    (i ls head rs n1 n2 : nat) : Prop :=
  nth_error lastHighs i = Some ls /\
  nth_error lastHighs (i + 1) = Some head /\
  nth_error lastHighs (i + 2) = Some rs /\
  HeadAndShouldersGroup candles lows ls head rs n1 n2.

(** ** Vocabulary of the trend statements *)

(** The most recent close of a series. *)
Definition lastClose (candles : list Candle) : float :=
  nth (length candles - 1) (map close candles) nan.

(** The most recent value of the specification's EMA of the closes. *)
Definition lastEma (candles : list Candle) (period : nat) : float :=
  emaSpec (map close candles) period (length candles - period).

(** ** Sample series *)

(** A bar with the given instant, high and low (opening at the low and
    closing at the high). *)
Definition bar (t : Z) (h l : float) : Candle :=
  {| time := t; open := l; high := h; low := l; close := h |}.

(** Five bars, the middle one with both the highest high and the lowest
    low of the five. *)
Definition wideBarSeries : list Candle :=
  [bar 0 10 9; bar 1 11 8; bar 2 15 5; bar 3 11 8; bar 4 10 9].

Local Open Scope float_scope.

(** A series from its highs and lows, one bar per unit of time. *)
Fixpoint barsFrom (t : Z) (prices : list (float * float)) : list Candle :=
  match prices with
  | [] => []
  | (h, l) :: prices' => bar t h l :: barsFrom (t + 1) prices'
  end.

(** Two tops, 1000 at index 3 and 1010 at index 9 (1% apart), around a
    trough of 980 at index 6 (2% below the first top); no other pivot. *)
Definition twoTopsSeries : list Candle :=
  barsFrom 0
    [(990, 988); (992, 989); (994, 990); (1000, 992); (994, 986); (992, 983);
     (990, 980); (992, 983); (994, 986); (1010, 992); (994, 990); (992, 989);
     (990, 988)].

(** The same series with the second top at 1020 (2% above the first). *)
Definition twoTopsApartSeries : list Candle :=
  barsFrom 0
    [(990, 988); (992, 989); (994, 990); (1000, 992); (994, 986); (992, 983);
     (990, 980); (992, 983); (994, 986); (1020, 992); (994, 990); (992, 989);
     (990, 988)].

(** [twoTopsSeries] followed by a later, lower top at index 15. *)
Definition threeTopsSeries : list Candle :=
  twoTopsSeries ++
  barsFrom 13
    [(992, 989); (994, 990); (996, 992); (994, 990); (992, 989); (990, 988)].

(** Tops at indices 3, 11 and 17; between the first two, a low pivot of
    985 at index 5 and a deeper one of 970 at index 8. *)
Definition twoTroughsSeries : list Candle :=
  barsFrom 0
    [(990, 988); (992, 989); (994, 990); (1000, 992); (996, 988); (994, 985);
     (992, 987); (990, 986); (992, 970); (996, 980); (1000, 990); (1010, 992);
     (1000, 990); (996, 989); (992, 988); (994, 989); (996, 990); (998, 992);
     (996, 990); (994, 989); (992, 988)].

(** The mirror image of a series about the price 1000. *)
Definition mirror (c : Candle) : Candle :=
  bar (time c) (2000 - low c) (2000 - high c).

Definition twoPeaksSeries : list Candle := map mirror twoTroughsSeries.

(** Shoulders of 1000 at indices 3 and 15 around a head at index 9, with
    neckline lows at indices 6 and 12. *)
Definition shouldersSeries (head : float) : list Candle :=
  barsFrom 0
    [(970, 950); (980, 960); (990, 970); (1000, 980); (990, 970); (980, 960);
     (970, 950); (980, 960); (990, 970); (head, 980); (990, 970); (980, 960);
     (970, 950); (980, 960); (990, 970); (1000, 980); (990, 970); (980, 960);
     (970, 950)].

(** [n] identical bars. *)
Definition flatSeries (n : nat) : list Candle := repeat (bar 0 100 100) n.

(** 210 daily bars closing at 100, 101, 102, ... and their mirror image
    closing at 1900, 1899, 1898, ... *)
Definition risingSeries : list Candle :=
  map (fun i => bar (Z.of_nat i) (num (100 + i)) (num (99 + i))) (seq 0 210).

Definition fallingSeries : list Candle := map mirror risingSeries.

(** Eight bars: high pivots at 2, 4 and 5 and a low pivot at 3. *)
Definition eightBarSeries : list Candle :=
  barsFrom 0
    [(90, 85); (90, 85); (100, 85); (95, 80); (100, 85); (100, 85); (90, 85);
     (90, 85)].

Local Close Scope float_scope.

(** A sample rendering of instants, standing in for [toISOString] where a
    statement is run on a sample series. *)
Definition stamp (t : Z) : string := NilZero.string_of_int (Z.to_int t).

(** ** Vocabulary of the further detector statements *)

(** The validity test of a double top as the code runs it: [l] is the
    first low pivot strictly between [h1] and [h2], the two highs pass the
    tolerance test at 0.015, and the drop from the higher of them to the
    low of [l] is not below 0.01 of it. *)
Definition DoubleTopPair (candles : list Candle) (lows : list nat)
    (h1 h2 l : nat) : Prop :=
  (exists rest, filter (fun x => (h1 <? x) && (x <? h2)) lows = l :: rest) /\
  approxEqual (priceAt high candles h1) (priceAt high candles h2) 0.015 = true /\
  ((max (priceAt high candles h1) (priceAt high candles h2) - priceAt low candles l)
   / max (priceAt high candles h1) (priceAt high candles h2) <? 0.01)%float = false.

(** A valid pair on the entries [i - 1] and [i] of [lastHighs]. *)
Definition TopPairAt (candles : list Candle) (lows lastHighs : list nat)
    (i h1 h2 l : nat) : Prop :=
  nth_error lastHighs (i - 1) = Some h1 /\
  nth_error lastHighs i = Some h2 /\
  DoubleTopPair candles lows h1 h2 l.

(** The mirror test of a double bottom: [h] is the first high pivot
    strictly between [l1] and [l2], the two lows pass the tolerance test at
    0.015, and the rise from the lower of them to the high of [h] is not
    below 0.01 of it. *)
Definition DoubleBottomPair (candles : list Candle) (highs : list nat)
    (l1 l2 h : nat) : Prop :=
  (exists rest, filter (fun x => (l1 <? x) && (x <? l2)) highs = h :: rest) /\
  approxEqual (priceAt low candles l1) (priceAt low candles l2) 0.015 = true /\
  ((priceAt high candles h - min (priceAt low candles l1) (priceAt low candles l2))
   / min (priceAt low candles l1) (priceAt low candles l2) <? 0.01)%float = false.

Definition BottomPairAt (candles : list Candle) (highs lastLows : list nat)
    (i l1 l2 h : nat) : Prop :=
  nth_error lastLows (i - 1) = Some l1 /\
  nth_error lastLows i = Some l2 /\
  DoubleBottomPair candles highs l1 l2 h.

(** The validity test of an inverse head-and-shoulders group as the code
    runs it: the head's low is strictly below 0.99 times each shoulder's
    low, the shoulders pass the tolerance test at 0.02, the high pivots
    strictly between the shoulders are [n1], ..., [n2] (at least two), and
    the highs of [n1] and [n2] pass the tolerance test at 0.02. *)
Definition InverseHeadAndShouldersGroup (candles : list Candle) (highs : list nat)
    (ls head rs n1 n2 : nat) : Prop :=
  (priceAt low candles head <? priceAt low candles ls * 0.99)%float = true /\
  (priceAt low candles head <? priceAt low candles rs * 0.99)%float = true /\
  approxEqual (priceAt low candles ls) (priceAt low candles rs) 0.02 = true /\
  (exists mid, filter (fun x => (ls <? x) && (x <? rs)) highs = n1 :: mid ++ [n2]) /\
  approxEqual (priceAt high candles n1) (priceAt high candles n2) 0.02 = true.

Definition InverseGroupAt (candles : list Candle) (highs lastLows : list nat)
    (i ls head rs n1 n2 : nat) : Prop :=
  nth_error lastLows i = Some ls /\
  nth_error lastLows (i + 1) = Some head /\
  nth_error lastLows (i + 2) = Some rs /\
  InverseHeadAndShouldersGroup candles highs ls head rs n1 n2.

(** The span of a match [p] runs from index [a] to index [b]: [a] is the
    first value of its [indices] object and the least of them, [b] the
    greatest; both are pivot positions of a lookback of 2, at least two
    candles apart. *)
Definition MatchSpan (candles : list Candle) (p : Pattern) (a b : nat) : Prop :=
  exists vs,
    map snd (indices p) = a :: vs /\
    minOf a vs = a /\ maxOf a vs = b /\
    2 <= a /\ a + 2 <= b /\ b + 2 < length candles.

(** ** The data source: [fetchSeries] *)

(** The body of a Twelve Data [time_series] response, as far as
    [fetchSeries] reads it.  A bar of the provider carries its fields as
    strings; an absent field of the body is [None]. *)
Module Td.

Record value : Type := mkValue {
  datetime : string;
  open : string;
  high : string;
  low : string;
  close : string
}.

Record body : Type := mkBody {
  status : option string;
  message : option string;
  values : option (list value)
}.

End Td.

(** The outcome of awaiting [fetchSeries]: rejected with an error message,
    or fulfilled with a candle series. *)
Inductive Fetched : Type :=
| Rejected (message : string)
| Series (candles : list Candle).

(** [x || d] on an optional string: absent and empty are falsy. *)
Definition orString (x : option string) (d : string) : string :=
  match x with
  | Some EmptyString | None => d
  | Some m => m
  end.

Section DataSource.

(** [parseFloat] on the provider's number strings, and the instant
    [new Date(datetime)] denotes. *)
Variable parseFloat : string -> float.
Variable newDate : string -> Z.

Definition candleOfValue (v : Td.value) : Candle :=
  {| time := newDate (Td.datetime v);
     open := parseFloat (Td.open v);
     high := parseFloat (Td.high v);
     low := parseFloat (Td.low v);
     close := parseFloat (Td.close v) |}.

(** [fetchSeries] from the point where the response has arrived: [data] is
    [res.data].  (The API key is checked when the server starts, so the
    guard on it at the top of the function never fires.) *)
Definition fetchSeries (symbol interval : string) (data : Td.body) : Fetched :=
  if match Td.status data with
     | Some st => (st =? "error")%string
     | None => false
     end
  then
    let msg := orString (Td.message data) "API error" in
    Rejected ("[TD] " ++ msg ++ " (symbol=" ++ symbol ++ ", interval=" ++ interval ++ ")")
  else
    let values := match Td.values data with
                  | Some vs => vs
                  | None => []
                  end in
    Series (rev (map candleOfValue values)).

End DataSource.

(** ** The scan endpoint: [GET /api/scan] *)

(** The reply of the endpoint: 400 when the symbol is missing, 200 with the
    scan's outcome, 500 when anything in the scan threw.  (Storing the
    signal is attempted before the 200 reply and its failure is only
    logged: it does not change the reply.) *)
Inductive Reply : Type :=
| BadRequest
| Scanned (symbol : string) (lastClose : option float)
          (dayTrend weekTrend : string) (signal : option Signal)
| Failed.

Definition PATTERN_TIMEFRAMES : list (string * string) :=
  [("1h", "1h"); ("4h", "4h")]%string.

Section Scan.

Variable toISOString : Z -> string.

(** The outcome of awaiting [fetchSeries(symbol, interval, outputsize)]. *)
Variable fetch : string -> string -> nat -> Fetched.

(** The loop [for (const tf of PATTERN_TIMEFRAMES)], over the (key,
    interval) pairs still to try, threading [lastClose]; [None] when an
    exception leaves the loop, otherwise [bestSignal] and [lastClose]. *)
Fixpoint scanTimeframes (symbol : string) (tfs : list (string * string))
    (dayTrend weekTrend : Trend) (lastClose : option float)
    : option (option Signal * option float) :=
  match tfs with
  | [] => Some (None, lastClose)
  | (key, interval) :: tfs' =>
      match fetch symbol interval 400 with
      | Rejected _ => None
      | Series tfCandles =>
          if length tfCandles =? 0 then
            scanTimeframes symbol tfs' dayTrend weekTrend lastClose
          else
            match field tfCandles (length tfCandles - 1) close with
            | TypeError => None
            | Ok c =>
                match detectPatternWithConfluence toISOString tfCandles key
                        dayTrend weekTrend with
                | TypeError => None
                | Ok (Some signal) => Some (Some signal, Some c)
                | Ok None =>
                    scanTimeframes symbol tfs' dayTrend weekTrend (Some c)
                end
            end
      end
  end.

(** The handler; [symbol] is [req.query.symbol], [None] when absent.  The
    day and week series are awaited together: either rejection fails the
    scan. *)
Definition scan (symbol : option string) : Reply :=
  match symbol with
  | None | Some EmptyString => BadRequest
  | Some symbol =>
      match fetch symbol "1day" 500, fetch symbol "1week" 500 with
      | Series day, Series week =>
          let dayTrend := detectTrendHTF (Some day) in
          let weekTrend := detectTrendHTF (Some week) in
          match scanTimeframes symbol PATTERN_TIMEFRAMES dayTrend weekTrend None with
          | Some (bestSignal, lastClose) =>
              Scanned symbol lastClose (trend dayTrend) (trend weekTrend) bestSignal
          | None => Failed
          end
      | _, _ => Failed
      end
  end.

End Scan.

(** ** The dashboard's refresh period *)

(** [Math.max(MIN_REFRESH_SEC, Number(input) || MIN_REFRESH_SEC)] of
    [runScanLoop], on the number [input] the field's text converts to. *)
Definition MIN_REFRESH_SEC : float := 3600%float.

Definition refreshSec (input : float) : float :=
  max MIN_REFRESH_SEC (orElse input MIN_REFRESH_SEC).

(** A sample response body: three bars, newest first. *)
Definition sampleBody : Td.body :=
  {| Td.status := Some "ok"%string;
     Td.message := None;
     Td.values :=
       Some [Td.mkValue "3" "1.3" "1.4" "1.2" "1.3";
             Td.mkValue "2" "1.2" "1.3" "1.1" "1.2";
             Td.mkValue "1" "1.1" "1.2" "1.0" "1.1"]%string |}.

(** A sample reading of a datetime: its decimal value (0 when it is not a
    number). *)
Definition sampleDate (d : string) : Z :=
  match NilZero.int_of_string d with
  | Some i => Z.of_int i
  | None => 0%Z
  end.

(** The bars of a response body ([res.data.values || []]). *)
Definition barsOf (data : Td.body) : list Td.value :=
  match Td.values data with
  | Some vs => vs
  | None => []
  end.

(** Sample outcomes of the four fetches of a scan: bearish day and week
    series, a double top on the 1h series, and a 4h fetch that fails. *)
Definition sampleFetch (symbol interval : string) (outputsize : nat) : Fetched :=
  if (interval =? "1day")%string then Series fallingSeries
  else if (interval =? "1week")%string then Series fallingSeries
  else if (interval =? "1h")%string then Series threeTopsSeries
  else Rejected "[TD] down".


(** A provider that rejects every request. *)
Definition downFetch (symbol interval : string) (outputsize : nat) : Fetched :=
  Rejected "[TD] down".

(* ================================================================== *)
(** * Properties *)
(* ================================================================== *)

(** ** Comparisons of binary64 numbers *)

Lemma SFcompare_antisym (f1 f2 : spec_float) :
  SFcompare f2 f1 = option_map CompOpp (SFcompare f1 f2).
Proof.
  destruct f1 as [s1| s1| |s1 m1 e1], f2 as [s2| s2| |s2 m2 e2]; simpl;
    try reflexivity;
    try (destruct s1; reflexivity);
    try (destruct s2; reflexivity);
    try (destruct s1, s2; reflexivity).
  destruct s1, s2; simpl; try reflexivity;
    rewrite (Z.compare_antisym e2 e1);
    destruct (e2 ?= e1)%Z; simpl; try reflexivity;
    change (Pos.compare_cont Eq m2 m1) with (Pos.compare m2 m1);
    change (Pos.compare_cont Eq m1 m2) with (Pos.compare m1 m2);
    rewrite (Pos.compare_antisym m2 m1);
    destruct (m2 ?= m1)%positive; reflexivity.
Qed.

Lemma number_comparable (x y : float) :
  is_nan x = false -> is_nan y = false ->
  exists c, SFcompare (Prim2SF x) (Prim2SF y) = Some c.
Proof.
  unfold is_nan. rewrite !eqb_spec. unfold SFeqb.
  intros Hx Hy.
  destruct (Prim2SF x) as [s1| s1| |s1 m1 e1] eqn:Ex;
    destruct (Prim2SF y) as [s2| s2| |s2 m2 e2] eqn:Ey;
    simpl in *; try discriminate; eauto.
Qed.

(** On numbers, "not [x < y]" is [y <= x]; with a NaN both are false. *)
Lemma not_ltb_leb (x y : float) :
  is_nan x = false -> is_nan y = false ->
  negb (x <? y)%float = (y <=? x)%float.
Proof.
  intros Hx Hy.
  destruct (number_comparable x y Hx Hy) as [c Hc].
  rewrite ltb_spec, leb_spec. unfold SFltb, SFleb.
  rewrite (SFcompare_antisym (Prim2SF x) (Prim2SF y)), Hc.
  destruct c; reflexivity.
Qed.

Lemma leb_refl (x : float) : is_nan x = false -> (x <=? x)%float = true.
Proof.
  intros Hx. rewrite <- (not_ltb_leb x x Hx Hx), ltb_spec. unfold SFltb.
  destruct (number_comparable x x Hx Hx) as [c Hc].
  pose proof (SFcompare_antisym (Prim2SF x) (Prim2SF x)) as H.
  rewrite Hc in H. simpl in H. rewrite Hc.
  destruct c; try reflexivity; discriminate.
Qed.

(** Two numbers that compare equal are the same value, unless both are
    zeros (of either sign). *)
Lemma SFcompare_Eq (f1 f2 : spec_float) :
  SFcompare f1 f2 = Some Eq ->
  f1 = f2 \/ (exists s1 s2, f1 = S754_zero s1 /\ f2 = S754_zero s2).
Proof.
  destruct f1 as [s1| s1| |s1 m1 e1], f2 as [s2| s2| |s2 m2 e2]; cbn;
    try discriminate;
    try (destruct s1; discriminate);
    try (destruct s2; discriminate).
  - intros _. right. now exists s1, s2.
  - destruct s1, s2; intros H; try discriminate; now left.
  - destruct s1, s2; try discriminate;
      destruct (e1 ?= e2)%Z eqn:Ee; try discriminate;
      change (Pos.compare_cont Eq m1 m2) with (Pos.compare m1 m2);
      destruct (m1 ?= m2)%positive eqn:Em; try discriminate;
      intros _; apply Z.compare_eq in Ee; apply Pos.compare_eq in Em;
      left; congruence.
Qed.

Lemma SFcompare_refl (f : spec_float) : f <> S754_nan -> SFcompare f f = Some Eq.
Proof.
  destruct f as [s| s| |s m e]; cbn; intros H; try reflexivity.
  - destruct s; reflexivity.
  - congruence.
  - destruct s; rewrite Z.compare_refl;
      change (Pos.compare_cont Eq m m) with (Pos.compare m m);
      now rewrite Pos.compare_refl.
Qed.

Lemma SFcompare_numbers (f1 f2 : spec_float) (c : comparison) :
  SFcompare f1 f2 = Some c -> f1 <> S754_nan /\ f2 <> S754_nan.
Proof.
  destruct f1, f2; cbn; intros H; split; congruence.
Qed.

(** [Math.max(x, y)] is [x] when [y <= x] and [x] is not a zero. *)
Lemma max_of_leb (x y : float) :
  (x =? 0)%float = false -> (y <=? x)%float = true -> max x y = x.
Proof.
  intros Hz Hle. unfold max, is_nan.
  rewrite leb_spec in Hle. unfold SFleb in Hle.
  rewrite !ltb_spec, !eqb_spec. unfold SFltb, SFeqb.
  rewrite eqb_spec in Hz. unfold SFeqb in Hz.
  pose proof (SFcompare_antisym (Prim2SF y) (Prim2SF x)) as Ha.
  destruct (SFcompare (Prim2SF y) (Prim2SF x)) as [[| |]|] eqn:Ec; try discriminate.
  - apply SFcompare_Eq in Ec. destruct Ec as [Ec|(s1 & s2 & _ & Ex)].
    + apply Prim2SF_inj in Ec. subst y.
      rewrite Ha. cbn -[get_sign].
      destruct (get_sign x); reflexivity.
    + rewrite Ex in Hz. discriminate.
  - destruct (SFcompare_numbers _ _ _ Ec) as [Hy Hx].
    rewrite Ha, (SFcompare_refl _ Hx), (SFcompare_refl _ Hy). reflexivity.
Qed.

(** ** Reads inside the series never fault *)

Lemma field_priceAt (candles : list Candle) (j : nat) (f : Candle -> float) :
  j < length candles -> field candles j f = Ok (priceAt f candles j).
Proof.
  unfold field, priceAt. intros Hj.
  destruct (nth_error candles j) eqn:E; [reflexivity|].
  apply nth_error_None in E. lia.
Qed.

Lemma priceAt_number (candles : list Candle) (j : nat) :
  Forall priced candles -> j < length candles ->
  is_nan (priceAt high candles j) = false /\ is_nan (priceAt low candles j) = false.
Proof.
  intros Hp Hj. unfold priceAt.
  destruct (nth_error candles j) as [c|] eqn:E.
  - apply nth_error_In in E. rewrite Forall_forall in Hp. exact (Hp c E).
  - apply nth_error_None in E. lia.
Qed.

(** ** The pivot loops as filters *)

Lemma pivotWindow_ok (candles : list Candle) (i : nat) (js : list nat) :
  i < length candles ->
  (forall j, In j js -> j < length candles) ->
  forall isHigh isLow,
    pivotWindow candles i js isHigh isLow =
    Ok (isHigh &&
          forallb (fun j => negb (gt (priceAt high candles j) (priceAt high candles i))) js,
        isLow &&
          forallb (fun j => negb (priceAt low candles j <? priceAt low candles i)%float) js).
Proof.
  intros Hi. induction js as [|j js IH]; intros Hjs isHigh isLow; simpl.
  - now rewrite !andb_true_r.
  - rewrite !(field_priceAt candles j) by (apply Hjs; now left).
    rewrite !(field_priceAt candles i) by exact Hi.
    simpl. rewrite IH by (intros j' Hj'; apply Hjs; now right).
    f_equal. f_equal.
    + destruct (gt (priceAt high candles j) (priceAt high candles i)), isHigh; reflexivity.
    + destruct (priceAt low candles j <? priceAt low candles i)%float, isLow; reflexivity.
Qed.

Lemma pivotLoop_ok (candles : list Candle) (lookback : nat) (idxs : list nat) :
  (forall i, In i idxs -> lookback <= i /\ i + lookback < length candles) ->
  forall highs lows,
    pivotLoop candles lookback idxs highs lows =
    Ok (highs ++ filter (isHighAt candles lookback) idxs,
        lows ++ filter (isLowAt candles lookback) idxs).
Proof.
  induction idxs as [|i idxs IH]; intros Hidx highs lows; cbn [pivotLoop filter].
  - now rewrite !app_nil_r.
  - destruct (Hidx i (or_introl eq_refl)) as [Hlo Hhi].
    rewrite pivotWindow_ok.
    + cbn [bind andb].
      fold (isHighAt candles lookback i). fold (isLowAt candles lookback i).
      rewrite IH by (intros i' Hi'; apply Hidx; now right).
      destruct (isHighAt candles lookback i), (isLowAt candles lookback i);
        now rewrite <- ?app_assoc.
    + lia.
    + intros j Hj. apply in_seq in Hj. lia.
Qed.

(** [findPivots] never faults, and its two arrays are the indices of the
    loop range that pass the window test. *)
Lemma findPivots_filter (candles : list Candle) (lookback : nat) :
  findPivots candles lookback =
  Ok (filter (isHighAt candles lookback)
        (seq lookback (length candles - lookback - lookback)),
      filter (isLowAt candles lookback)
        (seq lookback (length candles - lookback - lookback))).
Proof.
  unfold findPivots. rewrite pivotLoop_ok; [reflexivity|].
  intros i Hi. apply in_seq in Hi. lia.
Qed.

(** ** Order of the pivot arrays *)

Lemma seq_sorted (a n : nat) : StronglySorted lt (seq a n).
Proof.
  revert a. induction n as [|n IH]; intros a; simpl; constructor.
  - apply IH.
  - apply Forall_forall. intros x Hx. apply in_seq in Hx. lia.
Qed.

Lemma filter_sorted (f : nat -> bool) (l : list nat) :
  StronglySorted lt l -> StronglySorted lt (filter f l).
Proof.
  induction 1 as [|x l Hs IH Hx]; simpl; [constructor|].
  destruct (f x); [|exact IH].
  constructor; [exact IH|].
  rewrite Forall_forall in *. intros y Hy.
  apply filter_In in Hy. now apply Hx.
Qed.

Lemma skipn_sorted {A : Type} (R : A -> A -> Prop) (n : nat) (l : list A) :
  StronglySorted R l -> StronglySorted R (skipn n l).
Proof.
  revert l. induction n as [|n IH]; intros l Hs; [exact Hs|].
  destruct l as [|x l]; [constructor|].
  cbn [skipn]. apply IH. now apply StronglySorted_inv in Hs.
Qed.

(** In a sorted list, an earlier position is related to a later one. *)
Lemma sorted_nth {A : Type} (R : A -> A -> Prop) (l : list A) :
  StronglySorted R l ->
  forall i j a b,
    i < j -> nth_error l i = Some a -> nth_error l j = Some b -> R a b.
Proof.
  induction 1 as [|x l Hs IH Hx]; intros i j a b Hij Ha Hb.
  - destruct i; discriminate.
  - destruct j as [|j]; [lia|]. cbn [nth_error] in Hb.
    destruct i as [|i]; cbn [nth_error] in Ha.
    + injection Ha as <-. rewrite Forall_forall in Hx.
      apply Hx. eapply nth_error_In; exact Hb.
    + apply (IH i j a b); [lia|exact Ha|exact Hb].
Qed.

(** ** Membership in the pivot arrays *)

Lemma isHighAt_iff (candles : list Candle) (lookback i : nat) :
  lookback <= i ->
  isHighAt candles lookback i = true <-> NoHigherHigh candles lookback i.
Proof.
  intros Hi. unfold isHighAt, NoHigherHigh. rewrite forallb_forall. split.
  - intros H j Hj. apply negb_true_iff, H, in_seq. lia.
  - intros H j Hj. apply negb_true_iff, H. apply in_seq in Hj. lia.
Qed.

Lemma isLowAt_iff (candles : list Candle) (lookback i : nat) :
  lookback <= i ->
  isLowAt candles lookback i = true <-> NoLowerLow candles lookback i.
Proof.
  intros Hi. unfold isLowAt, NoLowerLow. rewrite forallb_forall. split.
  - intros H j Hj. apply negb_true_iff, H, in_seq. lia.
  - intros H j Hj. apply negb_true_iff, H. apply in_seq in Hj. lia.
Qed.

Lemma in_pivots (candles : list Candle) (lookback : nat) (f : nat -> bool) (i : nat) :
  In i (filter f (seq lookback (length candles - lookback - lookback))) <->
  lookback <= i < length candles - lookback /\ f i = true.
Proof.
  rewrite filter_In, in_seq. split; intros [H1 H2]; (split; [lia|exact H2]).
Qed.

(** On a series of numbers the literal test is the [>=] / [<=] contract. *)
Lemma NoHigherHigh_ge (candles : list Candle) (lookback i : nat) :
  Forall priced candles ->
  lookback <= i < length candles - lookback ->
  NoHigherHigh candles lookback i <->
  (forall j, i - lookback <= j <= i + lookback ->
             ge (priceAt high candles i) (priceAt high candles j) = true).
Proof.
  intros Hp Hi. unfold NoHigherHigh, gt, ge.
  split; intros H j Hj; specialize (H j Hj);
    destruct (priceAt_number candles i Hp) as [Hni _]; try lia;
    destruct (priceAt_number candles j Hp) as [Hnj _]; try lia;
    rewrite <- (not_ltb_leb _ _ Hni Hnj) in *;
    now apply negb_true_iff.
Qed.

Lemma NoLowerLow_le (candles : list Candle) (lookback i : nat) :
  Forall priced candles ->
  lookback <= i < length candles - lookback ->
  NoLowerLow candles lookback i <->
  (forall j, i - lookback <= j <= i + lookback ->
             (priceAt low candles i <=? priceAt low candles j)%float = true).
Proof.
  intros Hp Hi. unfold NoLowerLow.
  split; intros H j Hj; specialize (H j Hj);
    destruct (priceAt_number candles i Hp) as [_ Hni]; try lia;
    destruct (priceAt_number candles j Hp) as [_ Hnj]; try lia;
    rewrite <- (not_ltb_leb _ _ Hnj Hni) in *;
    now apply negb_true_iff.
Qed.

(** ** The pivot extractor's contract *)

(** C3.  On every series of priced candles and for every lookback L,
    [findPivots] returns (without fault) two index arrays such that: [i] is
    a high pivot iff L <= i < length - L and candle i's high is >= the high
    of every candle of [i - L, i + L]; symmetrically with <= on lows; in
    particular an index whose whole window carries one equal high is a high
    pivot (ties count); both arrays are in ascending order; and no index
    among the first or last L is produced. *)
Theorem findPivots_contract (candles : list Candle) (lookback : nat) :
  Forall priced candles ->
  exists highs lows,
    findPivots candles lookback = Ok (highs, lows) /\
    (forall i, In i highs <-> HighPivot candles lookback i) /\
    (forall i, In i lows <-> LowPivot candles lookback i) /\
    (forall i, lookback <= i < length candles - lookback ->
       (forall j, i - lookback <= j <= i + lookback ->
                  priceAt high candles j = priceAt high candles i) ->
       In i highs) /\
    StronglySorted lt highs /\ StronglySorted lt lows /\
    (forall i, In i highs \/ In i lows ->
               lookback <= i < length candles - lookback).
Proof.
  intros Hp. eexists. eexists.
  split; [apply findPivots_filter|].
  assert (Hhigh : forall i,
    In i (filter (isHighAt candles lookback)
            (seq lookback (length candles - lookback - lookback))) <->
    HighPivot candles lookback i).
  { intros i. rewrite in_pivots. unfold HighPivot.
    split; intros [Hi H]; (split; [exact Hi|]).
    - apply (NoHigherHigh_ge candles lookback i Hp Hi).
      apply isHighAt_iff; [lia|exact H].
    - apply isHighAt_iff; [lia|].
      now apply (NoHigherHigh_ge candles lookback i Hp Hi). }
  assert (Hlow : forall i,
    In i (filter (isLowAt candles lookback)
            (seq lookback (length candles - lookback - lookback))) <->
    LowPivot candles lookback i).
  { intros i. rewrite in_pivots. unfold LowPivot.
    split; intros [Hi H]; (split; [exact Hi|]).
    - apply (NoLowerLow_le candles lookback i Hp Hi).
      apply isLowAt_iff; [lia|exact H].
    - apply isLowAt_iff; [lia|].
      now apply (NoLowerLow_le candles lookback i Hp Hi). }
  split; [exact Hhigh|]. split; [exact Hlow|]. split; [|split; [|split]].
  - intros i Hi Hflat. apply Hhigh. split; [exact Hi|].
    intros j Hj. rewrite (Hflat j Hj). unfold ge.
    apply leb_refl. apply (priceAt_number candles i Hp). lia.
  - apply filter_sorted, seq_sorted.
  - apply filter_sorted, seq_sorted.
  - intros i [H|H]; apply in_pivots in H; lia.
Qed.

Lemma wideBarSeries_priced : Forall priced wideBarSeries.
Proof. repeat constructor. Qed.

Lemma findPivots_contract_witness :
  Forall priced wideBarSeries /\
  exists highs lows,
    findPivots wideBarSeries 2 = Ok (highs, lows) /\
    (forall i, In i highs <-> HighPivot wideBarSeries 2 i) /\
    (forall i, In i lows <-> LowPivot wideBarSeries 2 i) /\
    (forall i, 2 <= i < length wideBarSeries - 2 ->
       (forall j, i - 2 <= j <= i + 2 ->
                  priceAt high wideBarSeries j = priceAt high wideBarSeries i) ->
       In i highs) /\
    StronglySorted lt highs /\ StronglySorted lt lows /\
    (forall i, In i highs \/ In i lows -> 2 <= i < length wideBarSeries - 2).
Proof.
  split.
  - exact wideBarSeries_priced.
  - apply (findPivots_contract wideBarSeries 2). exact wideBarSeries_priced.
Defined.

(** A flat run: every index with a full window is a high pivot (and a low
    pivot), one pivot per index of the run. *)
Example findPivots_flat_run :
  findPivots (flatSeries 7) 2 = Ok ([2; 3; 4], [2; 3; 4]).
Proof. vm_compute. reflexivity. Qed.

(** ** The pivot arrays' invariant *)

(** C4 (as the code has it).  For every series and lookback, [findPivots]
    returns two arrays whose indices are strictly increasing; an index is
    in both arrays exactly when it has a full window in which no candle
    has a higher high and none a lower low, so the arrays need not be
    disjoint. *)
Theorem findPivots_increasing (candles : list Candle) (lookback : nat) :
  exists highs lows,
    findPivots candles lookback = Ok (highs, lows) /\
    StronglySorted lt highs /\ StronglySorted lt lows /\
    (forall i, In i highs /\ In i lows <->
               lookback <= i < length candles - lookback /\
               NoHigherHigh candles lookback i /\ NoLowerLow candles lookback i).
Proof.
  eexists. eexists. split; [apply findPivots_filter|].
  split; [apply filter_sorted, seq_sorted|].
  split; [apply filter_sorted, seq_sorted|].
  intros i. rewrite !in_pivots. split.
  - intros [[Hi Hh] [_ Hl]]. split; [exact Hi|]. split.
    + apply isHighAt_iff; [lia|exact Hh].
    + apply isLowAt_iff; [lia|exact Hl].
  - intros [Hi [Hh Hl]]. split; (split; [exact Hi|]).
    + apply isHighAt_iff; [lia|exact Hh].
    + apply isLowAt_iff; [lia|exact Hl].
Qed.

(** C4, as stated, fails: in [wideBarSeries] index 2 is returned both as a
    high pivot and as a low pivot. *)
Lemma findPivots_not_disjoint :
  findPivots wideBarSeries 2 = Ok ([2], [2]) /\
  ~ (forall highs lows i,
       findPivots wideBarSeries 2 = Ok (highs, lows) ->
       In i highs -> ~ In i lows).
Proof.
  assert (E : findPivots wideBarSeries 2 = Ok ([2], [2])) by (vm_compute; reflexivity).
  split; [exact E|].
  intros H. apply (H [2] [2] 2 E); now left.
Qed.

(** ** The detector loops as first-match scans *)

Lemma fieldAt_priceAt (candles : list Candle) (xs : list nat) (i idx : nat)
    (f : Candle -> float) :
  (forall x, In x xs -> x < length candles) ->
  nth_error xs i = Some idx ->
  fieldAt candles xs i f = Ok (idx, priceAt f candles idx).
Proof.
  intros Hxs E. unfold fieldAt. rewrite E.
  rewrite field_priceAt by (apply Hxs; eapply nth_error_In; exact E).
  reflexivity.
Qed.

Lemma filter_in_range (f : nat -> bool) (xs : list nat) (n : nat) :
  (forall x, In x xs -> x < n) -> forall x, In x (filter f xs) -> x < n.
Proof. intros H x Hx. apply filter_In in Hx. now apply H. Qed.

Lemma mTopLoop_firstMatch (candles : list Candle) (lows lastHighs idxs : list nat) :
  (forall x, In x lows -> x < length candles) ->
  (forall x, In x lastHighs -> x < length candles) ->
  mTopLoop candles lows lastHighs idxs =
  Ok (firstMatch (mTopAt candles lows lastHighs) idxs).
Proof.
  intros Hl Hh. induction idxs as [|i idxs IH]; [reflexivity|].
  cbn [mTopLoop firstMatch]. unfold mTopAt.
  destruct (nth_error lastHighs (i - 1)) as [h1Idx|] eqn:E1; [|exact IH].
  destruct (nth_error lastHighs i) as [h2Idx|] eqn:E2; [|exact IH].
  destruct (filter _ lows) as [|lIdx mid] eqn:Ef; [exact IH|].
  rewrite !field_priceAt.
  - cbn [bind].
    destruct (negb (approxEqual _ _ _)); [exact IH|].
    destruct (_ <? 0.01)%float; [exact IH|reflexivity].
  - eapply filter_in_range; [exact Hl|rewrite Ef; now left].
  - apply Hh. eapply nth_error_In; exact E2.
  - apply Hh. eapply nth_error_In; exact E1.
Qed.

Lemma invertedMLoop_firstMatch (candles : list Candle) (highs lastLows idxs : list nat) :
  (forall x, In x highs -> x < length candles) ->
  (forall x, In x lastLows -> x < length candles) ->
  invertedMLoop candles highs lastLows idxs =
  Ok (firstMatch (invertedMAt candles highs lastLows) idxs).
Proof.
  intros Hh Hl. induction idxs as [|i idxs IH]; [reflexivity|].
  cbn [invertedMLoop firstMatch]. unfold invertedMAt.
  destruct (nth_error lastLows (i - 1)) as [l1Idx|] eqn:E1; [|exact IH].
  destruct (nth_error lastLows i) as [l2Idx|] eqn:E2; [|exact IH].
  destruct (filter _ highs) as [|hIdx mid] eqn:Ef; [exact IH|].
  rewrite !field_priceAt.
  - cbn [bind].
    destruct (negb (approxEqual _ _ _)); [exact IH|].
    destruct (_ <? 0.01)%float; [exact IH|reflexivity].
  - eapply filter_in_range; [exact Hh|rewrite Ef; now left].
  - apply Hl. eapply nth_error_In; exact E2.
  - apply Hl. eapply nth_error_In; exact E1.
Qed.

Lemma nth_error_inside {A : Type} (xs : list A) (i : nat) :
  i < length xs -> exists x, nth_error xs i = Some x.
Proof.
  intros Hi. destruct (nth_error xs i) as [x|] eqn:E; [now exists x|].
  apply nth_error_None in E. lia.
Qed.

Lemma headAndShouldersLoop_firstMatch (candles : list Candle)
    (lows lastHighs idxs : list nat) :
  (forall x, In x lows -> x < length candles) ->
  (forall x, In x lastHighs -> x < length candles) ->
  (forall i, In i idxs -> i + 2 < length lastHighs) ->
  headAndShouldersLoop candles lows lastHighs idxs =
  Ok (firstMatch (headAndShouldersAt candles lows lastHighs) idxs).
Proof.
  intros Hl Hh. induction idxs as [|i idxs IH]; intros Hidx; [reflexivity|].
  assert (IH' := IH (fun j Hj => Hidx j (or_intror Hj))). clear IH.
  assert (Hi := Hidx i (or_introl eq_refl)).
  cbn [headAndShouldersLoop firstMatch]. unfold headAndShouldersAt.
  destruct (nth_error_inside lastHighs i) as [lsIdx E1]; [lia|].
  destruct (nth_error_inside lastHighs (i + 1)) as [headIdx E2]; [lia|].
  destruct (nth_error_inside lastHighs (i + 2)) as [rsIdx E3]; [lia|].
  rewrite (fieldAt_priceAt _ _ _ _ _ Hh E1), (fieldAt_priceAt _ _ _ _ _ Hh E2),
          (fieldAt_priceAt _ _ _ _ _ Hh E3), E1, E2, E3.
  cbn [bind].
  destruct (negb (gt _ _ && gt _ _)); [exact IH'|].
  destruct (negb (approxEqual _ _ 0.02)); [exact IH'|].
  cbv zeta.
  set (neckLows := filter _ lows).
  assert (Hn : forall x, In x neckLows -> x < length candles)
    by (apply filter_in_range; exact Hl).
  destruct (length neckLows <? 2) eqn:Elen; [exact IH'|].
  apply Nat.ltb_ge in Elen.
  destruct (nth_error_inside neckLows 0) as [n1Idx F1]; [lia|].
  destruct (nth_error_inside neckLows (length neckLows - 1)) as [n2Idx F2]; [lia|].
  rewrite (fieldAt_priceAt _ _ _ _ _ Hn F1), (fieldAt_priceAt _ _ _ _ _ Hn F2), F1, F2.
  cbn [bind].
  destruct (negb (approxEqual _ _ 0.02)); [exact IH'|reflexivity].
Qed.

Lemma inverseHeadAndShouldersLoop_firstMatch (candles : list Candle)
    (highs lastLows idxs : list nat) :
  (forall x, In x highs -> x < length candles) ->
  (forall x, In x lastLows -> x < length candles) ->
  (forall i, In i idxs -> i + 2 < length lastLows) ->
  inverseHeadAndShouldersLoop candles highs lastLows idxs =
  Ok (firstMatch (inverseHeadAndShouldersAt candles highs lastLows) idxs).
Proof.
  intros Hh Hl. induction idxs as [|i idxs IH]; intros Hidx; [reflexivity|].
  assert (IH' := IH (fun j Hj => Hidx j (or_intror Hj))). clear IH.
  assert (Hi := Hidx i (or_introl eq_refl)).
  cbn [inverseHeadAndShouldersLoop firstMatch]. unfold inverseHeadAndShouldersAt.
  destruct (nth_error_inside lastLows i) as [lsIdx E1]; [lia|].
  destruct (nth_error_inside lastLows (i + 1)) as [headIdx E2]; [lia|].
  destruct (nth_error_inside lastLows (i + 2)) as [rsIdx E3]; [lia|].
  rewrite (fieldAt_priceAt _ _ _ _ _ Hl E1), (fieldAt_priceAt _ _ _ _ _ Hl E2),
          (fieldAt_priceAt _ _ _ _ _ Hl E3), E1, E2, E3.
  cbn [bind].
  destruct (negb ((_ <? _)%float && (_ <? _)%float)); [exact IH'|].
  destruct (negb (approxEqual _ _ 0.02)); [exact IH'|].
  cbv zeta.
  set (neckHighs := filter _ highs).
  assert (Hn : forall x, In x neckHighs -> x < length candles)
    by (apply filter_in_range; exact Hh).
  destruct (length neckHighs <? 2) eqn:Elen; [exact IH'|].
  apply Nat.ltb_ge in Elen.
  destruct (nth_error_inside neckHighs 0) as [n1Idx F1]; [lia|].
  destruct (nth_error_inside neckHighs (length neckHighs - 1)) as [n2Idx F2]; [lia|].
  rewrite (fieldAt_priceAt _ _ _ _ _ Hn F1), (fieldAt_priceAt _ _ _ _ _ Hn F2), F1, F2.
  cbn [bind].
  destruct (negb (approxEqual _ _ 0.02)); [exact IH'|reflexivity].
Qed.

(** ** Index bookkeeping *)

Lemma pivots_in_range (candles : list Candle) (lookback : nat) (highs lows : list nat) :
  findPivots candles lookback = Ok (highs, lows) ->
  (forall x, In x highs -> x < length candles) /\
  (forall x, In x lows -> x < length candles).
Proof.
  rewrite findPivots_filter. intros E. injection E as <- <-.
  split; intros x Hx; apply in_pivots in Hx; lia.
Qed.

Lemma pivots_sorted (candles : list Candle) (lookback : nat) (highs lows : list nat) :
  findPivots candles lookback = Ok (highs, lows) ->
  StronglySorted lt highs /\ StronglySorted lt lows.
Proof.
  rewrite findPivots_filter. intros E. injection E as <- <-.
  split; apply filter_sorted, seq_sorted.
Qed.

Lemma sliceLast_In {A : Type} (n : nat) (xs : list A) (x : A) :
  In x (sliceLast n xs) -> In x xs.
Proof.
  unfold sliceLast. intros H.
  rewrite <- (firstn_skipn (length xs - n) xs). apply in_or_app. now right.
Qed.

Lemma sliceLast_length {A : Type} (n : nat) (xs : list A) :
  length (sliceLast n xs) = Nat.min n (length xs).
Proof. unfold sliceLast. rewrite length_skipn. lia. Qed.

Lemma downTo_In (hi lo i : nat) : In i (downTo hi lo) <-> lo <= i <= hi.
Proof. unfold downTo. rewrite <- in_rev, in_seq. lia. Qed.

Lemma downTo_S (hi lo : nat) : lo <= S hi -> downTo (S hi) lo = S hi :: downTo hi lo.
Proof.
  intros H. unfold downTo.
  replace (S (S hi) - lo) with (S (S hi - lo)) by lia.
  rewrite seq_S, rev_app_distr. cbn [rev app].
  f_equal. lia.
Qed.

Lemma downTo_empty (hi lo : nat) : hi < lo -> downTo hi lo = [].
Proof. intros H. unfold downTo. now replace (S hi - lo) with 0 by lia. Qed.

(** A first-match scan down from [hi] returns the match of the greatest
    index that has one. *)
Lemma firstMatch_downTo {A : Type} (step : nat -> option A) (lo hi : nat) :
  match firstMatch step (downTo hi lo) with
  | Some p =>
      exists i, lo <= i <= hi /\ step i = Some p /\
                forall i', i < i' <= hi -> step i' = None
  | None => forall i, lo <= i <= hi -> step i = None
  end.
Proof.
  induction hi as [|hi IH].
  - destruct lo as [|lo].
    + cbn. destruct (step 0) as [p|] eqn:E.
      * exists 0. repeat split; try lia. exact E.
      * intros i Hi. now replace i with 0 by lia.
    + rewrite downTo_empty by lia. cbn. intros i Hi. lia.
  - destruct (Nat.le_gt_cases lo (S hi)) as [Hle|Hgt].
    + rewrite downTo_S by exact Hle. cbn [firstMatch].
      destruct (step (S hi)) as [p|] eqn:E.
      * exists (S hi). repeat split; try lia. exact E.
      * destruct (firstMatch step (downTo hi lo)) as [p|].
        -- destruct IH as [i [Hi [Hs Hn]]]. exists i. repeat split; try lia; [exact Hs|].
           intros i' Hi'. destruct (Nat.eq_dec i' (S hi)) as [->|Hne]; [exact E|].
           apply Hn. lia.
        -- intros i Hi. destruct (Nat.eq_dec i (S hi)) as [->|Hne]; [exact E|].
           apply IH. lia.
    + rewrite downTo_empty by lia. cbn. intros i Hi. lia.
Qed.

(** ** The detectors never fault *)

Lemma detectMTop_scan (candles : list Candle) (highs lows : list nat) :
  findPivots candles 2 = Ok (highs, lows) ->
  detectMTop candles =
  Ok (if (length highs <? 2) || (length lows <? 1) then None
      else firstMatch (mTopAt candles lows (sliceLast 4 highs))
             (downTo (length (sliceLast 4 highs) - 2) 1)).
Proof.
  intros E. destruct (pivots_in_range _ _ _ _ E) as [Hh Hl].
  unfold detectMTop. rewrite E. cbn [bind].
  destruct ((length highs <? 2) || (length lows <? 1)); [reflexivity|].
  apply mTopLoop_firstMatch; [exact Hl|].
  intros x Hx. apply Hh. eapply sliceLast_In; exact Hx.
Qed.

Lemma detectInvertedM_scan (candles : list Candle) (highs lows : list nat) :
  findPivots candles 2 = Ok (highs, lows) ->
  detectInvertedM candles =
  Ok (if (length lows <? 2) || (length highs <? 1) then None
      else firstMatch (invertedMAt candles highs (sliceLast 4 lows))
             (downTo (length (sliceLast 4 lows) - 2) 1)).
Proof.
  intros E. destruct (pivots_in_range _ _ _ _ E) as [Hh Hl].
  unfold detectInvertedM. rewrite E. cbn [bind].
  destruct ((length lows <? 2) || (length highs <? 1)); [reflexivity|].
  apply invertedMLoop_firstMatch; [exact Hh|].
  intros x Hx. apply Hl. eapply sliceLast_In; exact Hx.
Qed.

Lemma detectHeadAndShoulders_scan (candles : list Candle) (highs lows : list nat) :
  findPivots candles 2 = Ok (highs, lows) ->
  detectHeadAndShoulders candles =
  Ok (if (length highs <? 3) || (length lows <? 2) then None
      else if length (sliceLast 6 highs) <? 3 then None
      else firstMatch (headAndShouldersAt candles lows (sliceLast 6 highs))
             (downTo (length (sliceLast 6 highs) - 3) 0)).
Proof.
  intros E. destruct (pivots_in_range _ _ _ _ E) as [Hh Hl].
  unfold detectHeadAndShoulders. rewrite E. cbn [bind].
  destruct ((length highs <? 3) || (length lows <? 2)); [reflexivity|].
  cbv zeta. destruct (length (sliceLast 6 highs) <? 3) eqn:E3; [reflexivity|].
  apply Nat.ltb_ge in E3.
  apply headAndShouldersLoop_firstMatch; [exact Hl| |].
  - intros x Hx. apply Hh. eapply sliceLast_In; exact Hx.
  - intros i Hi. apply downTo_In in Hi. lia.
Qed.

Lemma detectInverseHeadAndShoulders_scan (candles : list Candle) (highs lows : list nat) :
  findPivots candles 2 = Ok (highs, lows) ->
  detectInverseHeadAndShoulders candles =
  Ok (if (length lows <? 3) || (length highs <? 2) then None
      else if length (sliceLast 6 lows) <? 3 then None
      else firstMatch (inverseHeadAndShouldersAt candles highs (sliceLast 6 lows))
             (downTo (length (sliceLast 6 lows) - 3) 0)).
Proof.
  intros E. destruct (pivots_in_range _ _ _ _ E) as [Hh Hl].
  unfold detectInverseHeadAndShoulders. rewrite E. cbn [bind].
  destruct ((length lows <? 3) || (length highs <? 2)); [reflexivity|].
  cbv zeta. destruct (length (sliceLast 6 lows) <? 3) eqn:E3; [reflexivity|].
  apply Nat.ltb_ge in E3.
  apply inverseHeadAndShouldersLoop_firstMatch; [exact Hh| |].
  - intros x Hx. apply Hl. eapply sliceLast_In; exact Hx.
  - intros i Hi. apply downTo_In in Hi. lia.
Qed.

Lemma detectors_total (candles : list Candle) :
  exists mTop invM hs invHs,
    detectMTop candles = Ok mTop /\
    detectInvertedM candles = Ok invM /\
    detectHeadAndShoulders candles = Ok hs /\
    detectInverseHeadAndShoulders candles = Ok invHs.
Proof.
  pose proof (findPivots_filter candles 2) as E.
  do 4 eexists.
  split; [exact (detectMTop_scan _ _ _ E)|].
  split; [exact (detectInvertedM_scan _ _ _ E)|].
  split; [exact (detectHeadAndShoulders_scan _ _ _ E)|].
  exact (detectInverseHeadAndShoulders_scan _ _ _ E).
Qed.

(** ** The confluence gate *)

(** C1.  For every day trend, week trend and intraday series, whatever the
    four detectors return: when both trends are "bearish" the gate returns
    the bearish signal built from the double-top match if there is one,
    else from the head-and-shoulders match; when both are "bullish", the
    bullish signal built from the double-bottom (Inverted M) match if there
    is one, else from the inverse head-and-shoulders match; and it returns
    [null] in every other case: a trend that is neither (sideways,
    neutral), mixed directions, or no match under the active state. *)
Theorem confluence_gate (toISOString : Z -> string) (candles : list Candle)
    (tfLabel : string) (dayTrend weekTrend : Trend) :
  exists mTop invM hs invHs,
    detectMTop candles = Ok mTop /\
    detectInvertedM candles = Ok invM /\
    detectHeadAndShoulders candles = Ok hs /\
    detectInverseHeadAndShoulders candles = Ok invHs /\
    detectPatternWithConfluence toISOString candles tfLabel dayTrend weekTrend =
    Ok (if (trend dayTrend =? "bearish")%string && (trend weekTrend =? "bearish")%string
        then
          match mTop with
          | Some p => Some (buildPatternSignal toISOString "bearish" tfLabel p candles)
          | None =>
              option_map
                (fun p => buildPatternSignal toISOString "bearish" tfLabel p candles) hs
          end
        else if (trend dayTrend =? "bullish")%string && (trend weekTrend =? "bullish")%string
        then
          match invM with
          | Some p => Some (buildPatternSignal toISOString "bullish" tfLabel p candles)
          | None =>
              option_map
                (fun p => buildPatternSignal toISOString "bullish" tfLabel p candles) invHs
          end
        else None).
Proof.
  destruct (detectors_total candles) as (mTop & invM & hs & invHs & E1 & E2 & E3 & E4).
  exists mTop, invM, hs, invHs. repeat (split; [assumption|]).
  unfold detectPatternWithConfluence. rewrite E1, E2, E3, E4. cbn [bind].
  destruct (String.eqb_spec (trend dayTrend) "bearish") as [Hd|Hd].
  - rewrite Hd. cbn [andb].
    change ("bearish" =? "bullish")%string with false. cbn [andb].
    destruct (trend weekTrend =? "bearish")%string.
    + destruct mTop as [p|]; [reflexivity|]. destruct hs as [p|]; reflexivity.
    + reflexivity.
  - cbn [andb].
    destruct ((trend dayTrend =? "bullish")%string && (trend weekTrend =? "bullish")%string).
    + destruct invM as [p|]; [reflexivity|]. destruct invHs as [p|]; reflexivity.
    + reflexivity.
Qed.

(** ** The trough of a double top, the peak of a double bottom *)

Lemma filter_head_earliest (f : nat -> bool) (xs : list nat) (m : nat) (mid : list nat) :
  StronglySorted lt xs ->
  filter f xs = m :: mid ->
  In m xs /\ f m = true /\ forall x, In x xs -> f x = true -> m <= x.
Proof.
  intros Hs Ef.
  assert (Hm : In m (filter f xs)) by (rewrite Ef; now left).
  apply filter_In in Hm. destruct Hm as [Hin Hfm].
  split; [exact Hin|]. split; [exact Hfm|].
  intros x Hx Hfx.
  assert (Hx' : In x (filter f xs)) by (apply filter_In; now split).
  pose proof (filter_sorted f xs Hs) as Hs'. rewrite Ef in Hx', Hs'.
  destruct Hx' as [->|Hx']; [lia|].
  apply StronglySorted_inv in Hs'. destruct Hs' as [_ Hall].
  rewrite Forall_forall in Hall. specialize (Hall x Hx'). lia.
Qed.

Lemma between_true (a b x : nat) : (a <? x) && (x <? b) = true <-> a < x < b.
Proof. rewrite andb_true_iff, !Nat.ltb_lt. tauto. Qed.

Lemma mTopAt_trough (candles : list Candle) (lows lastHighs : list nat) (i : nat)
    (p : Pattern) :
  StronglySorted lt lows ->
  mTopAt candles lows lastHighs i = Some p ->
  exists h1 h2 l,
    indices p = [("h1Idx", h1); ("h2Idx", h2); ("lIdx", l)]%string /\
    nth_error lastHighs (i - 1) = Some h1 /\ nth_error lastHighs i = Some h2 /\
    EarliestBetween lows h1 h2 l.
Proof.
  intros Hs. unfold mTopAt.
  destruct (nth_error lastHighs (i - 1)) as [h1|] eqn:E1; [|discriminate].
  destruct (nth_error lastHighs i) as [h2|] eqn:E2; [|discriminate].
  destruct (filter _ lows) as [|l mid] eqn:Ef; [discriminate|].
  cbv zeta.
  destruct (negb (approxEqual _ _ _)); [discriminate|].
  destruct (_ <? 0.01)%float; [discriminate|].
  intros E. injection E as <-. exists h1, h2, l.
  split; [reflexivity|]. split; [reflexivity|]. split; [reflexivity|].
  destruct (filter_head_earliest _ _ _ _ Hs Ef) as (Hin & Hb & Hmin).
  split; [exact Hin|]. split; [now apply between_true|].
  intros x Hx Hbx. apply Hmin; [exact Hx|now apply between_true].
Qed.

Lemma invertedMAt_peak (candles : list Candle) (highs lastLows : list nat) (i : nat)
    (p : Pattern) :
  StronglySorted lt highs ->
  invertedMAt candles highs lastLows i = Some p ->
  exists l1 l2 h,
    indices p = [("l1Idx", l1); ("l2Idx", l2); ("hIdx", h)]%string /\
    nth_error lastLows (i - 1) = Some l1 /\ nth_error lastLows i = Some l2 /\
    EarliestBetween highs l1 l2 h.
Proof.
  intros Hs. unfold invertedMAt.
  destruct (nth_error lastLows (i - 1)) as [l1|] eqn:E1; [|discriminate].
  destruct (nth_error lastLows i) as [l2|] eqn:E2; [|discriminate].
  destruct (filter _ highs) as [|h mid] eqn:Ef; [discriminate|].
  cbv zeta.
  destruct (negb (approxEqual _ _ _)); [discriminate|].
  destruct (_ <? 0.01)%float; [discriminate|].
  intros E. injection E as <-. exists l1, l2, h.
  split; [reflexivity|]. split; [reflexivity|]. split; [reflexivity|].
  destruct (filter_head_earliest _ _ _ _ Hs Ef) as (Hin & Hb & Hmin).
  split; [exact Hin|]. split; [now apply between_true|].
  intros x Hx Hbx. apply Hmin; [exact Hx|now apply between_true].
Qed.

Lemma firstMatch_some {A : Type} (step : nat -> option A) (idxs : list nat) (p : A) :
  firstMatch step idxs = Some p -> exists i, In i idxs /\ step i = Some p.
Proof.
  induction idxs as [|i idxs IH]; cbn [firstMatch]; [discriminate|].
  destruct (step i) as [q|] eqn:E.
  - intros H. injection H as ->. exists i. split; [now left|exact E].
  - intros H. destruct (IH H) as [j [Hj Hs]]. exists j. split; [now right|exact Hs].
Qed.

(** C10.  Whenever [detectMTop] returns a match, its [lIdx] is the
    earliest low pivot strictly between [h1Idx] and [h2Idx] (two of the
    high pivots); whenever [detectInvertedM] returns a match, its [hIdx] is
    the earliest high pivot strictly between [l1Idx] and [l2Idx].  No depth
    or height is compared in the choice. *)
Theorem trough_is_earliest (candles : list Candle) (p : Pattern) :
  exists highs lows,
    findPivots candles 2 = Ok (highs, lows) /\
    (detectMTop candles = Ok (Some p) ->
     exists h1 h2 l,
       indices p = [("h1Idx", h1); ("h2Idx", h2); ("lIdx", l)]%string /\
       In h1 highs /\ In h2 highs /\ EarliestBetween lows h1 h2 l) /\
    (detectInvertedM candles = Ok (Some p) ->
     exists l1 l2 h,
       indices p = [("l1Idx", l1); ("l2Idx", l2); ("hIdx", h)]%string /\
       In l1 lows /\ In l2 lows /\ EarliestBetween highs l1 l2 h).
Proof.
  pose proof (findPivots_filter candles 2) as E.
  destruct (pivots_sorted _ _ _ _ E) as [Hsh Hsl].
  eexists. eexists. split; [exact E|]. split.
  - rewrite (detectMTop_scan _ _ _ E).
    destruct (_ || _); [discriminate|].
    intros H. injection H as H.
    apply firstMatch_some in H. destruct H as [i [_ H]].
    destruct (mTopAt_trough _ _ _ _ _ Hsl H) as (h1 & h2 & l & Hp & H1 & H2 & He).
    exists h1, h2, l. repeat split; try assumption; try apply He;
      eapply sliceLast_In, nth_error_In; eassumption.
  - rewrite (detectInvertedM_scan _ _ _ E).
    destruct (_ || _); [discriminate|].
    intros H. injection H as H.
    apply firstMatch_some in H. destruct H as [i [_ H]].
    destruct (invertedMAt_peak _ _ _ _ _ Hsh H) as (l1 & l2 & h & Hp & H1 & H2 & He).
    exists l1, l2, h. repeat split; try assumption; try apply He;
      eapply sliceLast_In, nth_error_In; eassumption.
Qed.

Lemma trough_is_earliest_witness :
  (detectMTop twoTroughsSeries =
     Ok (Some {| type := "M-top";
                 indices := [("h1Idx", 3); ("h2Idx", 11); ("lIdx", 5)]%string |}) /\
   (priceAt low twoTroughsSeries 8 <? priceAt low twoTroughsSeries 5)%float = true /\
   exists highs lows,
     findPivots twoTroughsSeries 2 = Ok (highs, lows) /\
     exists h1 h2 l,
       [("h1Idx", 3); ("h2Idx", 11); ("lIdx", 5)]%string =
       [("h1Idx", h1); ("h2Idx", h2); ("lIdx", l)]%string /\
       In h1 highs /\ In h2 highs /\ EarliestBetween lows h1 h2 l) /\
  (detectInvertedM twoPeaksSeries =
     Ok (Some {| type := "Inverted M";
                 indices := [("l1Idx", 3); ("l2Idx", 11); ("hIdx", 5)]%string |}) /\
   (priceAt high twoPeaksSeries 5 <? priceAt high twoPeaksSeries 8)%float = true /\
   exists highs lows,
     findPivots twoPeaksSeries 2 = Ok (highs, lows) /\
     exists l1 l2 h,
       [("l1Idx", 3); ("l2Idx", 11); ("hIdx", 5)]%string =
       [("l1Idx", l1); ("l2Idx", l2); ("hIdx", h)]%string /\
       In l1 lows /\ In l2 lows /\ EarliestBetween highs l1 l2 h).
Proof.
  split.
  - split; [vm_compute; reflexivity|]. split; [vm_compute; reflexivity|].
    destruct (trough_is_earliest twoTroughsSeries
                {| type := "M-top";
                   indices := [("h1Idx", 3); ("h2Idx", 11); ("lIdx", 5)]%string |})
      as (highs & lows & E & HT & _).
    exists highs, lows. split; [exact E|]. apply HT. vm_compute; reflexivity.
  - split; [vm_compute; reflexivity|]. split; [vm_compute; reflexivity|].
    destruct (trough_is_earliest twoPeaksSeries
                {| type := "Inverted M";
                   indices := [("l1Idx", 3); ("l2Idx", 11); ("hIdx", 5)]%string |})
      as (highs & lows & E & _ & HB).
    exists highs, lows. split; [exact E|]. apply HB. vm_compute; reflexivity.
Defined.

(** ** The head-and-shoulders scan *)

Lemma two_ends {A : Type} (l : list A) (a b : A) :
  2 <= length l ->
  nth_error l 0 = Some a ->
  nth_error l (length l - 1) = Some b ->
  exists mid, l = a :: mid ++ [b].
Proof.
  destruct l as [|x l]; [cbn; lia|].
  cbn [length nth_error]. intros Hlen Ha Hb. injection Ha as ->.
  destruct (exists_last (l := l)) as (mid & y & ->).
  { intros ->. cbn in Hlen. lia. }
  exists mid. f_equal. f_equal.
  rewrite length_app in Hb. cbn [length] in Hb.
  replace (S (length mid + 1) - 1) with (S (length mid)) in Hb by lia.
  cbn [nth_error] in Hb.
  rewrite nth_error_app2 in Hb by lia.
  rewrite Nat.sub_diag in Hb. cbn in Hb. congruence.
Qed.

Lemma ends_nth {A : Type} (a b : A) (mid : list A) :
  nth_error (a :: mid ++ [b]) 0 = Some a /\
  nth_error (a :: mid ++ [b]) (length (a :: mid ++ [b]) - 1) = Some b /\
  2 <= length (a :: mid ++ [b]).
Proof.
  split; [reflexivity|].
  cbn [length]. rewrite length_app. cbn [length].
  replace (S (length mid + 1) - 1) with (S (length mid)) by lia.
  split; [|lia].
  cbn [nth_error]. rewrite nth_error_app2 by lia.
  now rewrite Nat.sub_diag.
Qed.

(** One iteration matches exactly on a valid group, and then returns its
    five indices. *)
Lemma headAndShouldersAt_iff (candles : list Candle) (lows lastHighs : list nat)
    (i : nat) (p : Pattern) :
  headAndShouldersAt candles lows lastHighs i = Some p <->
  exists ls head rs n1 n2,
    GroupAt candles lows lastHighs i ls head rs n1 n2 /\
    p = {| type := "Head & Shoulders";
           indices := [("lsIdx", ls); ("headIdx", head); ("rsIdx", rs);
                       ("n1Idx", n1); ("n2Idx", n2)]%string |}.
Proof.
  unfold headAndShouldersAt, GroupAt, HeadAndShouldersGroup. split.
  - destruct (nth_error lastHighs i) as [ls|]; [|discriminate].
    destruct (nth_error lastHighs (i + 1)) as [head|]; [|discriminate].
    destruct (nth_error lastHighs (i + 2)) as [rs|]; [|discriminate].
    cbv zeta.
    destruct (gt _ (_ * 1.01)) eqn:G1; [|discriminate].
    destruct (gt _ (_ * 1.01)) eqn:G2 in |- *; [|discriminate].
    cbn [andb negb].
    destruct (approxEqual _ _ 0.02) eqn:A1; [|discriminate].
    cbn [negb].
    destruct (length _ <? 2) eqn:Elen; [discriminate|].
    apply Nat.ltb_ge in Elen.
    destruct (nth_error _ 0) as [n1|] eqn:F1; [|discriminate].
    destruct (nth_error _ (_ - 1)) as [n2|] eqn:F2; [|discriminate].
    destruct (approxEqual _ _ 0.02) eqn:A2 in |- *; [|discriminate].
    cbn [negb]. intros E. injection E as <-.
    exists ls, head, rs, n1, n2.
    split; [|reflexivity].
    repeat (split; [first [reflexivity|assumption]|]).
    split; [|exact A2].
    exact (two_ends _ _ _ Elen F1 F2).
  - intros (ls & head & rs & n1 & n2 & (E1 & E2 & E3 & G1 & G2 & A1 & [mid Ef] & A2) & ->).
    rewrite E1, E2, E3. cbv zeta. rewrite G1, G2, A1, Ef. cbn [andb negb].
    destruct (ends_nth n1 n2 mid) as (F1 & F2 & Hlen).
    apply Nat.ltb_ge in Hlen. rewrite Hlen, F1, F2, A2. reflexivity.
Qed.

Lemma GroupAt_matches (candles : list Candle) (lows lastHighs : list nat)
    (i ls head rs n1 n2 : nat) :
  GroupAt candles lows lastHighs i ls head rs n1 n2 ->
  i + 2 < length lastHighs /\ 2 <= length lows /\
  headAndShouldersAt candles lows lastHighs i <> None.
Proof.
  intros G. split; [|split].
  - destruct G as (_ & _ & E3 & _).
    apply nth_error_Some. rewrite E3. discriminate.
  - destruct G as (_ & _ & _ & _ & _ & _ & [mid Ef] & _).
    pose proof (filter_length_le (fun x => (ls <? x) && (x <? rs)) lows) as Hle.
    rewrite Ef in Hle. cbn [length] in Hle. rewrite length_app in Hle.
    cbn [length] in Hle. lia.
  - intros Hnone.
    assert (H : headAndShouldersAt candles lows lastHighs i =
                Some {| type := "Head & Shoulders";
                        indices := [("lsIdx", ls); ("headIdx", head); ("rsIdx", rs);
                                    ("n1Idx", n1); ("n2Idx", n2)]%string |}).
    { apply headAndShouldersAt_iff. exists ls, head, rs, n1, n2. now split. }
    congruence.
Qed.

(** C7 (as the code has it).  [detectHeadAndShoulders] never faults and
    scans the groups of three consecutive entries of the last six high
    pivots, most recent group first.  It returns the first group whose
    head is strictly above 1.01 times each shoulder (a margin of more than
    1%), whose shoulders pass the 2% tolerance test, which has at least two
    low pivots strictly between the shoulders, and whose first and last
    such lows pass the 2% tolerance test; the match carries the five
    indices.  It returns [null] exactly when no group of the last six high
    pivots is valid: older pivots are never examined. *)
Theorem detectHeadAndShoulders_first_group (candles : list Candle) :
  exists highs lows r,
    findPivots candles 2 = Ok (highs, lows) /\
    detectHeadAndShoulders candles = Ok r /\
    match r with
    | Some p =>
        exists i ls head rs n1 n2,
          GroupAt candles lows (sliceLast 6 highs) i ls head rs n1 n2 /\
          p = {| type := "Head & Shoulders";
                 indices := [("lsIdx", ls); ("headIdx", head); ("rsIdx", rs);
                             ("n1Idx", n1); ("n2Idx", n2)]%string |} /\
          forall i' ls' head' rs' n1' n2',
            i < i' ->
            ~ GroupAt candles lows (sliceLast 6 highs) i' ls' head' rs' n1' n2'
    | None =>
        forall i ls head rs n1 n2,
          ~ GroupAt candles lows (sliceLast 6 highs) i ls head rs n1 n2
    end.
Proof.
  pose proof (findPivots_filter candles 2) as E.
  eexists. eexists. eexists. split; [exact E|].
  split; [exact (detectHeadAndShoulders_scan _ _ _ E)|].
  set (highs := filter (isHighAt candles 2) _).
  set (lows := filter (isLowAt candles 2) _).
  destruct ((length highs <? 3) || (length lows <? 2)) eqn:C1.
  { intros i ls head rs n1 n2 G.
    destruct (GroupAt_matches _ _ _ _ _ _ _ _ _ G) as (Hi & Hl & _).
    rewrite sliceLast_length in Hi.
    apply orb_true_iff in C1. rewrite !Nat.ltb_lt in C1. lia. }
  destruct (length (sliceLast 6 highs) <? 3) eqn:C2.
  { intros i ls head rs n1 n2 G.
    destruct (GroupAt_matches _ _ _ _ _ _ _ _ _ G) as (Hi & _ & _).
    apply Nat.ltb_lt in C2. lia. }
  apply Nat.ltb_ge in C2.
  pose proof (firstMatch_downTo
                (headAndShouldersAt candles lows (sliceLast 6 highs)) 0
                (length (sliceLast 6 highs) - 3)) as F.
  destruct (firstMatch _ _) as [p|].
  - destruct F as (i & Hi & Hs & Hlater).
    apply headAndShouldersAt_iff in Hs.
    destruct Hs as (ls & head & rs & n1 & n2 & G & ->).
    exists i, ls, head, rs, n1, n2. split; [exact G|]. split; [reflexivity|].
    intros i' ls' head' rs' n1' n2' Hlt G'.
    destruct (GroupAt_matches _ _ _ _ _ _ _ _ _ G') as (Hi' & _ & Hne).
    apply Hne, Hlater. lia.
  - intros i ls head rs n1 n2 G.
    destruct (GroupAt_matches _ _ _ _ _ _ _ _ _ G) as (Hi & _ & Hne).
    apply Hne, F. lia.
Qed.

(** C7, as stated, fails at a margin of exactly 1%: with shoulders of 1000
    and a head of 1010 (1000 * 1.01 = 1010 and (1010 - 1000) / 1000 = 0.01
    in binary64), equal shoulders, two low pivots between them and equal
    neckline lows, the only group of the last six high pivots meets every
    stated condition, and the detector returns [null]; with a head of
    1011 the same group is returned. *)
Lemma detectHeadAndShoulders_exact_margin :
  findPivots (shouldersSeries 1010) 2 = Ok ([3; 9; 15], [6; 12]) /\
  ge (priceAt high (shouldersSeries 1010) 9)
     (priceAt high (shouldersSeries 1010) 3 * 1.01) = true /\
  ge (priceAt high (shouldersSeries 1010) 9)
     (priceAt high (shouldersSeries 1010) 15 * 1.01) = true /\
  ge ((priceAt high (shouldersSeries 1010) 9 - priceAt high (shouldersSeries 1010) 3)
      / priceAt high (shouldersSeries 1010) 3) 0.01 = true /\
  approxEqual (priceAt high (shouldersSeries 1010) 3)
              (priceAt high (shouldersSeries 1010) 15) 0.02 = true /\
  filter (fun x => (3 <? x) && (x <? 15)) [6; 12] = [6; 12] /\
  approxEqual (priceAt low (shouldersSeries 1010) 6)
              (priceAt low (shouldersSeries 1010) 12) 0.02 = true /\
  detectHeadAndShoulders (shouldersSeries 1010) = Ok None /\
  detectHeadAndShoulders (shouldersSeries 1011) =
    Ok (Some {| type := "Head & Shoulders";
                indices := [("lsIdx", 3); ("headIdx", 9); ("rsIdx", 15);
                            ("n1Idx", 6); ("n2Idx", 12)]%string |}).
Proof. repeat split; vm_compute; reflexivity. Qed.

(** ** The double-top scan *)

(** With two high pivots or fewer the loop of [detectMTop] has no
    iteration: its first index is [length - 2] and its last is 1. *)
Lemma detectMTop_needs_three_highs (candles : list Candle) (highs lows : list nat) :
  findPivots candles 2 = Ok (highs, lows) ->
  length highs <= 2 ->
  detectMTop candles = Ok None.
Proof.
  intros E Hlen. rewrite (detectMTop_scan _ _ _ E).
  destruct (_ || _); [reflexivity|].
  rewrite downTo_empty; [reflexivity|].
  rewrite sliceLast_length. lia.
Qed.

(** Whenever [detectMTop] returns a match, a high pivot more recent than
    its [h2Idx] exists: the most recent adjacent pair is never the one
    returned. *)
Lemma detectMTop_never_latest (candles : list Candle) (highs lows : list nat)
    (p : Pattern) :
  findPivots candles 2 = Ok (highs, lows) ->
  detectMTop candles = Ok (Some p) ->
  exists h1 h2 l newer,
    indices p = [("h1Idx", h1); ("h2Idx", h2); ("lIdx", l)]%string /\
    In newer highs /\ h2 < newer.
Proof.
  intros E. destruct (pivots_sorted _ _ _ _ E) as [Hsh Hsl].
  rewrite (detectMTop_scan _ _ _ E).
  destruct (_ || _); [discriminate|].
  intros H. injection H as H.
  pose proof (firstMatch_downTo (mTopAt candles lows (sliceLast 4 highs)) 1
                (length (sliceLast 4 highs) - 2)) as F.
  rewrite H in F. destruct F as (i & Hi & Hs & _).
  destruct (mTopAt_trough _ _ _ _ _ Hsl Hs) as (h1 & h2 & l & Hp & _ & E2 & _).
  destruct (nth_error_inside (sliceLast 4 highs) (i + 1)) as [newer En]; [lia|].
  exists h1, h2, l, newer. split; [exact Hp|]. split.
  - eapply sliceLast_In, nth_error_In; exact En.
  - apply (sorted_nth lt (sliceLast 4 highs)
             (skipn_sorted lt _ highs Hsh) i (i + 1) h2 newer);
      [lia|exact E2|exact En].
Qed.

(** C2 (the code at the failing input).  In [twoTopsSeries] the only two
    high pivots, 1000 at index 3 and 1010 at index 9, are 1% apart and pass
    the 1.5% tolerance test; the low pivot 980 at index 6 lies strictly
    between them and is 2.97% below the higher top; yet [detectMTop]
    returns [null], because its scan starts one pair before the most
    recent one.  Once a later high pivot exists ([threeTopsSeries]) the
    same pair is returned. *)
Theorem detectMTop_skips_latest_pair :
  findPivots twoTopsSeries 2 = Ok ([3; 9], [6]) /\
  priceAt high twoTopsSeries 3 = 1000%float /\
  priceAt high twoTopsSeries 9 = 1010%float /\
  priceAt low twoTopsSeries 6 = 980%float /\
  approxEqual 1000 1010 0.015 = true /\
  ((max 1000 1010 - 980) / max 1000 1010 <? 0.01)%float = false /\
  detectMTop twoTopsSeries = Ok None /\
  findPivots threeTopsSeries 2 = Ok ([3; 9; 15], [6; 12]) /\
  detectMTop threeTopsSeries =
    Ok (Some {| type := "M-top";
                indices := [("h1Idx", 3); ("h2Idx", 9); ("lIdx", 6)]%string |}) /\
  approxEqual 1000 1020 0.015 = false /\
  detectMTop twoTopsApartSeries = Ok None.
Proof. repeat split; vm_compute; reflexivity. Qed.

(** ** The trend classifier on short series *)

Lemma ema_short (values : list float) (period : nat) :
  length values < period -> ema values period = [].
Proof.
  intros H. unfold ema. apply Nat.ltb_lt in H. now rewrite H.
Qed.

(** C5 (as the code has it).  [detectTrendHTF] is a total function: it
    raises no fault.  On every series of fewer than 200 candles it returns
    the trend "neutral": with the reason "Not enough data" below 60
    candles, and with the reason "Not enough EMA data" from 60 to 199
    candles, whatever the prices, because [ema(closes, 200)] is empty. *)
Theorem detectTrendHTF_insufficient (candles : list Candle) :
  length candles < 200 ->
  detectTrendHTF (Some candles) =
  {| trend := "neutral";
     reason := if length candles <? 60 then "Not enough data"
               else "Not enough EMA data" |}.
Proof.
  intros H. unfold detectTrendHTF.
  destruct (length candles <? 60); [reflexivity|].
  rewrite (ema_short (map close candles) 200) by (rewrite length_map; exact H).
  reflexivity.
Qed.

Lemma detectTrendHTF_insufficient_witness :
  length (flatSeries 120) < 200 /\
  detectTrendHTF (Some (flatSeries 120)) =
  {| trend := "neutral";
     reason := if length (flatSeries 120) <? 60 then "Not enough data"
               else "Not enough EMA data" |}.
Proof.
  split.
  - vm_compute. lia.
  - apply (detectTrendHTF_insufficient (flatSeries 120)). vm_compute. lia.
Defined.

(** C5, as stated, fails on the reason text: below 60 candles the reason
    is "Not enough data", not "insufficient data". *)
Lemma detectTrendHTF_reason_text :
  detectTrendHTF (Some []) = {| trend := "neutral"; reason := "Not enough data" |} /\
  reason (detectTrendHTF (Some [])) <> "insufficient data"%string.
Proof. split; [reflexivity|discriminate]. Qed.

(** ** The moving average: the loop against the specification's recursion *)

Lemma emaLoop_emaSpec (values : list float) (period m : nat) :
  forall n result,
    emaLoop values (2 / (num period + 1))%float (seq (period + n) m)
            (emaSpec values period n) result =
    result ++ map (emaSpec values period) (seq (S n) m).
Proof.
  induction m as [|m IH]; intros n result; cbn [seq emaLoop map].
  - now rewrite app_nil_r.
  - change (nth (period + n) values nan * (2 / (num period + 1))
            + emaSpec values period n * (1 - 2 / (num period + 1)))%float
      with (emaSpec values period (S n)).
    replace (S (period + n)) with (period + S n) by lia.
    rewrite IH, <- app_assoc. reflexivity.
Qed.

(** [ema] returns the specification's averages for the positions
    [period - 1 .. length - 1], in order. *)
Lemma ema_emaSpec (values : list float) (period : nat) :
  period <= length values ->
  ema values period =
  map (emaSpec values period) (seq 0 (S (length values - period))).
Proof.
  intros H. unfold ema.
  replace (length values <? period) with false by (symmetry; apply Nat.ltb_ge; exact H).
  cbv zeta.
  change (fold_left (fun sum v => sum + v) (firstn period values) 0 / num period)%float
    with (emaSpec values period 0).
  pose proof (emaLoop_emaSpec values period (length values - period) 0
                [emaSpec values period 0]) as L.
  rewrite Nat.add_0_r in L. rewrite L. reflexivity.
Qed.

Lemma ema_last (values : list float) (period : nat) :
  period <= length values ->
  nth (length (ema values period) - 1) (ema values period) nan =
  emaSpec values period (length values - period).
Proof.
  intros H. rewrite (ema_emaSpec values period H).
  rewrite length_map, length_seq.
  replace (S (length values - period) - 1) with (length values - period) by lia.
  rewrite (nth_indep _ nan (emaSpec values period 0))
    by (rewrite length_map, length_seq; lia).
  rewrite map_nth, seq_nth by lia. reflexivity.
Qed.

(** [<] on binary64 numbers is asymmetric. *)
Lemma ltb_asym (x y : float) : (x <? y)%float = true -> (y <? x)%float = false.
Proof.
  rewrite !ltb_spec. unfold SFltb.
  rewrite (SFcompare_antisym (Prim2SF x) (Prim2SF y)).
  destruct (SFcompare (Prim2SF x) (Prim2SF y)) as [[| |]|]; cbn; congruence.
Qed.

(** C6.  On every series of at least 200 candles, [ema(closes, 50)] and
    [ema(closes, 200)] are the specification's moving averages (seed: the
    simple average of the first [period] closes; then value * k + previous
    * (1 - k) with k = 2 / (period + 1)), and the trend is decided by the
    most recent close and the most recent two averages alone: "bullish" iff
    close > EMA50 > EMA200, "bearish" iff close < EMA50 < EMA200, and
    "sideways" otherwise. *)
Theorem detectTrendHTF_classification (candles : list Candle) :
  200 <= length candles ->
  ema (map close candles) 50 =
    map (emaSpec (map close candles) 50) (seq 0 (S (length candles - 50))) /\
  ema (map close candles) 200 =
    map (emaSpec (map close candles) 200) (seq 0 (S (length candles - 200))) /\
  (trend (detectTrendHTF (Some candles)) = "bullish"%string <->
   gt (lastClose candles) (lastEma candles 50) = true /\
   gt (lastEma candles 50) (lastEma candles 200) = true) /\
  (trend (detectTrendHTF (Some candles)) = "bearish"%string <->
   (lastClose candles <? lastEma candles 50)%float = true /\
   (lastEma candles 50 <? lastEma candles 200)%float = true) /\
  (trend (detectTrendHTF (Some candles)) = "sideways"%string <->
   ~ (gt (lastClose candles) (lastEma candles 50) = true /\
      gt (lastEma candles 50) (lastEma candles 200) = true) /\
   ~ ((lastClose candles <? lastEma candles 50)%float = true /\
      (lastEma candles 50 <? lastEma candles 200)%float = true)).
Proof.
  intros H.
  assert (H50 : 50 <= length (map close candles)) by (rewrite length_map; lia).
  assert (H200 : 200 <= length (map close candles)) by (rewrite length_map; lia).
  split; [rewrite (ema_emaSpec _ _ H50), length_map; reflexivity|].
  split; [rewrite (ema_emaSpec _ _ H200), length_map; reflexivity|].
  unfold detectTrendHTF.
  replace (length candles <? 60) with false by (symmetry; apply Nat.ltb_ge; lia).
  replace (length (ema (map close candles) 200) =? 0) with false
    by (symmetry; apply Nat.eqb_neq;
        rewrite (ema_emaSpec _ _ H200), length_map, length_seq; lia).
  cbv zeta.
  rewrite (ema_last _ _ H50), (ema_last _ _ H200), !length_map.
  fold (lastClose candles). fold (lastEma candles 50). fold (lastEma candles 200).
  unfold gt.
  destruct (lastEma candles 50 <? lastClose candles)%float eqn:B1;
    destruct (lastEma candles 200 <? lastEma candles 50)%float eqn:B2;
    destruct (lastClose candles <? lastEma candles 50)%float eqn:S1;
    destruct (lastEma candles 50 <? lastEma candles 200)%float eqn:S2;
    cbn [andb trend];
    try (apply ltb_asym in B1; congruence);
    try (apply ltb_asym in B2; congruence);
    repeat split; try discriminate; try reflexivity;
      try (intros [? ?]; discriminate);
      try (intros [_ [? ?]]; discriminate);
      try (intros [Hn _]; exfalso; apply Hn; now split);
      try (intros [_ Hn]; exfalso; apply Hn; now split).
Qed.

Lemma detectTrendHTF_classification_witness :
  200 <= length risingSeries /\
  (ema (map close risingSeries) 50 =
     map (emaSpec (map close risingSeries) 50) (seq 0 (S (length risingSeries - 50))) /\
   ema (map close risingSeries) 200 =
     map (emaSpec (map close risingSeries) 200) (seq 0 (S (length risingSeries - 200))) /\
   (trend (detectTrendHTF (Some risingSeries)) = "bullish"%string <->
    gt (lastClose risingSeries) (lastEma risingSeries 50) = true /\
    gt (lastEma risingSeries 50) (lastEma risingSeries 200) = true) /\
   (trend (detectTrendHTF (Some risingSeries)) = "bearish"%string <->
    (lastClose risingSeries <? lastEma risingSeries 50)%float = true /\
    (lastEma risingSeries 50 <? lastEma risingSeries 200)%float = true) /\
   (trend (detectTrendHTF (Some risingSeries)) = "sideways"%string <->
    ~ (gt (lastClose risingSeries) (lastEma risingSeries 50) = true /\
       gt (lastEma risingSeries 50) (lastEma risingSeries 200) = true) /\
    ~ ((lastClose risingSeries <? lastEma risingSeries 50)%float = true /\
       (lastEma risingSeries 50 <? lastEma risingSeries 200)%float = true))).
Proof.
  split.
  - vm_compute. lia.
  - apply (detectTrendHTF_classification risingSeries). vm_compute. lia.
Defined.

(** The three verdicts on sample series. *)
Example detectTrendHTF_rising :
  detectTrendHTF (Some risingSeries) =
  {| trend := "bullish"; reason := "Close > EMA50 > EMA200" |}.
Proof. vm_compute. reflexivity. Qed.

Example detectTrendHTF_falling :
  detectTrendHTF (Some fallingSeries) =
  {| trend := "bearish"; reason := "Close < EMA50 < EMA200" |}.
Proof. vm_compute. reflexivity. Qed.

Example detectTrendHTF_flat :
  detectTrendHTF (Some (flatSeries 200)) =
  {| trend := "sideways"; reason := "Mixed EMAs" |}.
Proof. vm_compute. reflexivity. Qed.

(** ** The tolerance test *)

(** C8 (as the code has it).  For all numbers a, b and t, [approxEqual]
    holds iff |a - b| / d <= t, where d is the average of |a| and |b|
    unless that average is zero (or NaN), in which case d is 1; the
    divisor d is never zero.  There is no floor on a small non-zero
    average: the test agrees with the rule |a - b| / max(avg, epsilon) <= t
    whenever the average is non-zero and at least epsilon. *)
Theorem approxEqual_rule (a b t : float) :
  approxEqual a b t =
    (abs (a - b) /
     (if truthy ((abs a + abs b) / 2) then (abs a + abs b) / 2 else 1) <=? t)%float /\
  ((if truthy ((abs a + abs b) / 2) then (abs a + abs b) / 2 else 1) =? 0)%float = false /\
  (forall epsilon,
     truthy ((abs a + abs b) / 2) = true ->
     (epsilon <=? (abs a + abs b) / 2)%float = true ->
     approxEqualSpec epsilon a b t = approxEqual a b t).
Proof.
  assert (Hz : truthy ((abs a + abs b) / 2) = true ->
               ((abs a + abs b) / 2 =? 0)%float = false).
  { unfold truthy. intros T. apply andb_true_iff in T. destruct T as [T _].
    now apply negb_true_iff in T. }
  split; [reflexivity|]. split.
  - destruct (truthy ((abs a + abs b) / 2)) eqn:T; [|reflexivity].
    now apply Hz.
  - intros epsilon T Hle. unfold approxEqualSpec, approxEqual, orElse.
    now rewrite (max_of_leb _ _ (Hz T) Hle), T.
Qed.

Lemma approxEqual_rule_witness :
  truthy ((abs 1000 + abs 1010) / 2) = true /\
  (1 <=? (abs 1000 + abs 1010) / 2)%float = true /\
  approxEqualSpec 1 1000 1010 0.015 = approxEqual 1000 1010 0.015.
Proof.
  assert (T : truthy ((abs 1000 + abs 1010) / 2) = true) by (vm_compute; reflexivity).
  assert (M : (1 <=? (abs 1000 + abs 1010) / 2)%float = true)
    by (vm_compute; reflexivity).
  split; [exact T|]. split; [exact M|].
  exact (proj2 (proj2 (approxEqual_rule 1000 1010 0.015)) 1%float T M).
Defined.

(** C8, as stated, fails for a floor of 1 (the only fallback constant in
    the code) and for a floor of 1e-9 alike: inputs whose average is
    non-zero but below the floor are divided by the average, not by the
    floor.  It fails even for the smallest positive floor, 2^-1074: the
    average of 2^-1074 and 0 rounds to zero and the code divides by 1. *)
Lemma approxEqual_no_floor :
  approxEqual 0.1 0.2 0.5 = false /\
  approxEqualSpec 1 0.1 0.2 0.5 = true /\
  approxEqual 1e-10 0 1 = false /\
  approxEqualSpec 1e-9 1e-10 0 1 = true /\
  approxEqual 0x1p-1074 0 0.5 = true /\
  approxEqualSpec 0x1p-1074 0x1p-1074 0 0.5 = false.
Proof. repeat split; vm_compute; reflexivity. Qed.

(** The degenerate input: both magnitudes zero. *)
Example approxEqual_zero : approxEqual 0 0 0.01 = true.
Proof. vm_compute. reflexivity. Qed.

(** ** The signal builder *)

Lemma minOf_spec (v : nat) (vs : list nat) :
  In (minOf v vs) (v :: vs) /\ forall x, In x (v :: vs) -> minOf v vs <= x.
Proof.
  unfold minOf. revert v. induction vs as [|w vs IH]; intros v; cbn [fold_left].
  - split; [now left|]. intros x [->|[]]. lia.
  - destruct (IH (Nat.min v w)) as [Hin Hle]. split.
    + destruct Hin as [Hin|Hin].
      * rewrite <- Hin. destruct (Nat.min_dec v w) as [->| ->]; [now left|right; now left].
      * right. now right.
    + intros x [->|[->|Hx]].
      * specialize (Hle (Nat.min x w) (or_introl eq_refl)). lia.
      * specialize (Hle (Nat.min v x) (or_introl eq_refl)). lia.
      * apply Hle. now right.
Qed.

Lemma maxOf_spec (v : nat) (vs : list nat) :
  In (maxOf v vs) (v :: vs) /\ forall x, In x (v :: vs) -> x <= maxOf v vs.
Proof.
  unfold maxOf. revert v. induction vs as [|w vs IH]; intros v; cbn [fold_left].
  - split; [now left|]. intros x [->|[]]. lia.
  - destruct (IH (Nat.max v w)) as [Hin Hle]. split.
    + destruct Hin as [Hin|Hin].
      * rewrite <- Hin. destruct (Nat.max_dec v w) as [->| ->]; [now left|right; now left].
      * right. now right.
    + intros x [->|[->|Hx]].
      * specialize (Hle (Nat.max x w) (or_introl eq_refl)). lia.
      * specialize (Hle (Nat.max v x) (or_introl eq_refl)). lia.
      * apply Hle. now right.
Qed.

(** The extreme indices of a span do not depend on the order in which the
    span lists them. *)
Lemma minOf_maxOf_perm (v w : nat) (vs ws : list nat) :
  Permutation (v :: vs) (w :: ws) ->
  minOf v vs = minOf w ws /\ maxOf v vs = maxOf w ws.
Proof.
  intros P.
  destruct (minOf_spec v vs) as [Hv1 Hv2]. destruct (minOf_spec w ws) as [Hw1 Hw2].
  destruct (maxOf_spec v vs) as [Mv1 Mv2]. destruct (maxOf_spec w ws) as [Mw1 Mw2].
  pose proof (Hv2 _ (Permutation_in _ (Permutation_sym P) Hw1)).
  pose proof (Hw2 _ (Permutation_in _ P Hv1)).
  pose proof (Mv2 _ (Permutation_in _ (Permutation_sym P) Mw1)).
  pose proof (Mw2 _ (Permutation_in _ P Mv1)).
  lia.
Qed.

(** In a time-ordered series an earlier position carries an earlier or
    equal instant. *)
Lemma time_ordered (candles : list Candle) :
  StronglySorted (fun a b => (time a <= time b)%Z) candles ->
  forall i j a b,
    i <= j -> nth_error candles i = Some a -> nth_error candles j = Some b ->
    (time a <= time b)%Z.
Proof.
  intros Hs i j a b Hij Ha Hb.
  destruct (Nat.eq_dec i j) as [->|Hne].
  - rewrite Ha in Hb. injection Hb as <-. lia.
  - apply (sorted_nth _ candles Hs i j a b); [lia|exact Ha|exact Hb].
Qed.

(** C9.  For every time-ordered series and every match whose span is a
    non-empty set of indices of the series, [buildPatternSignal] sets the
    window to the instants of the candles at the minimum and the maximum
    index of the span, so [from] is never later than [to]; the signal
    carries the direction it was given; and listing the span in another
    order yields the same signal. *)
Theorem buildPatternSignal_window (toISOString : Z -> string) (dir tfLabel : string)
    (p : Pattern) (candles : list Candle) (v : nat) (vs : list nat) :
  map snd (indices p) = v :: vs ->
  (forall x, In x (v :: vs) -> x < length candles) ->
  StronglySorted (fun a b => (time a <= time b)%Z) candles ->
  exists first last,
    nth_error candles (minOf v vs) = Some first /\
    nth_error candles (maxOf v vs) = Some last /\
    In (minOf v vs) (v :: vs) /\ In (maxOf v vs) (v :: vs) /\
    (forall x, In x (v :: vs) -> minOf v vs <= x <= maxOf v vs) /\
    buildPatternSignal toISOString dir tfLabel p candles =
      {| direction := dir; pattern := type p; timeframe := tfLabel;
         from := Some (toISOString (time first));
         to := Some (toISOString (time last)) |} /\
    (time first <= time last)%Z /\
    (forall p',
       type p' = type p ->
       Permutation (map snd (indices p')) (map snd (indices p)) ->
       buildPatternSignal toISOString dir tfLabel p' candles =
       buildPatternSignal toISOString dir tfLabel p candles).
Proof.
  intros Hspan Hrange Hsorted.
  destruct (minOf_spec v vs) as [Hmin1 Hmin2].
  destruct (maxOf_spec v vs) as [Hmax1 Hmax2].
  destruct (nth_error_inside candles (minOf v vs) (Hrange _ Hmin1)) as [first Ef].
  destruct (nth_error_inside candles (maxOf v vs) (Hrange _ Hmax1)) as [last El].
  exists first, last.
  split; [exact Ef|]. split; [exact El|]. split; [exact Hmin1|]. split; [exact Hmax1|].
  split; [intros x Hx; split; [now apply Hmin2|now apply Hmax2]|].
  split; [unfold buildPatternSignal; rewrite Hspan, Ef, El; reflexivity|].
  split.
  - apply (time_ordered candles Hsorted (minOf v vs) (maxOf v vs)); try assumption.
    now apply Hmax2.
  - intros p' Htype Hperm. rewrite Hspan in Hperm.
    destruct (map snd (indices p')) as [|w ws] eqn:Hspan'.
    + apply Permutation_nil in Hperm. discriminate.
    + destruct (minOf_maxOf_perm w v ws vs Hperm) as [Hmin Hmax].
      unfold buildPatternSignal. rewrite Hspan, Hspan', Hmin, Hmax, Htype.
      reflexivity.
Qed.

Lemma twoTopsSeries_time_ordered :
  StronglySorted (fun a b => (time a <= time b)%Z) twoTopsSeries.
Proof. repeat constructor; cbn; lia. Qed.

Lemma buildPatternSignal_window_witness :
  buildPatternSignal stamp "bearish" "1h"
    {| type := "M-top";
       indices := [("h1Idx", 3); ("h2Idx", 9); ("lIdx", 6)]%string |}
    twoTopsSeries =
  {| direction := "bearish"; pattern := "M-top"; timeframe := "1h";
     from := Some "3"%string; to := Some "9"%string |} /\
  exists first last,
    nth_error twoTopsSeries (minOf 3 [9; 6]) = Some first /\
    nth_error twoTopsSeries (maxOf 3 [9; 6]) = Some last /\
    In (minOf 3 [9; 6]) [3; 9; 6] /\ In (maxOf 3 [9; 6]) [3; 9; 6] /\
    (forall x, In x [3; 9; 6] -> minOf 3 [9; 6] <= x <= maxOf 3 [9; 6]) /\
    buildPatternSignal stamp "bearish" "1h"
      {| type := "M-top";
         indices := [("h1Idx", 3); ("h2Idx", 9); ("lIdx", 6)]%string |}
      twoTopsSeries =
      {| direction := "bearish"; pattern := "M-top"; timeframe := "1h";
         from := Some (stamp (time first)); to := Some (stamp (time last)) |} /\
    (time first <= time last)%Z /\
    (forall p',
       type p' = "M-top"%string ->
       Permutation (map snd (indices p')) [3; 9; 6] ->
       buildPatternSignal stamp "bearish" "1h" p' twoTopsSeries =
       buildPatternSignal stamp "bearish" "1h"
         {| type := "M-top";
            indices := [("h1Idx", 3); ("h2Idx", 9); ("lIdx", 6)]%string |}
         twoTopsSeries).
Proof.
  split; [vm_compute; reflexivity|].
  apply (buildPatternSignal_window stamp "bearish" "1h"
           {| type := "M-top";
              indices := [("h1Idx", 3); ("h2Idx", 9); ("lIdx", 6)]%string |}
           twoTopsSeries 3 [9; 6]).
  - reflexivity.
  - intros x Hx. cbn in Hx. cbn [length twoTopsSeries barsFrom].
    repeat (destruct Hx as [<-|Hx]; [lia|]). destruct Hx.
  - exact twoTopsSeries_time_ordered.
Defined.

(** ** The pipeline on sample series *)

(** Both trends bearish and a double top behind the most recent high
    pivot: a bearish signal over the instants of indices 3 and 9. *)
Example confluence_bearish :
  detectPatternWithConfluence stamp threeTopsSeries "1h"
    {| trend := "bearish"; reason := "Close < EMA50 < EMA200" |}
    {| trend := "bearish"; reason := "Close < EMA50 < EMA200" |} =
  Ok (Some {| direction := "bearish"; pattern := "M-top"; timeframe := "1h";
              from := Some "3"%string; to := Some "9"%string |}).
Proof. vm_compute. reflexivity. Qed.

(** Mixed trends: no signal, whatever the series holds. *)
Example confluence_mixed :
  detectPatternWithConfluence stamp threeTopsSeries "1h"
    {| trend := "bullish"; reason := "Close > EMA50 > EMA200" |}
    {| trend := "bearish"; reason := "Close < EMA50 < EMA200" |} =
  Ok None.
Proof. vm_compute. reflexivity. Qed.

(** Both trends bullish and a double bottom: a bullish signal. *)
Example confluence_bullish :
  detectPatternWithConfluence stamp twoPeaksSeries "4h"
    {| trend := "bullish"; reason := "Close > EMA50 > EMA200" |}
    {| trend := "bullish"; reason := "Close > EMA50 > EMA200" |} =
  Ok (Some {| direction := "bullish"; pattern := "Inverted M"; timeframe := "4h";
              from := Some "3"%string; to := Some "11"%string |}).
Proof. vm_compute. reflexivity. Qed.

(** A sideways day trend disables the gate. *)
Example confluence_sideways :
  detectPatternWithConfluence stamp threeTopsSeries "1h"
    {| trend := "sideways"; reason := "Mixed EMAs" |}
    {| trend := "bearish"; reason := "Close < EMA50 < EMA200" |} =
  Ok None.
Proof. vm_compute. reflexivity. Qed.

(** The mirrored shoulders: an inverse head and shoulders when the head is
    more than 1% below the shoulders. *)
Example detectInverseHeadAndShoulders_mirror :
  detectInverseHeadAndShoulders (map mirror (shouldersSeries 1011)) =
  Ok (Some {| type := "Inverse Head & Shoulders";
              indices := [("lsIdx", 3); ("headIdx", 9); ("rsIdx", 15);
                          ("n1Idx", 6); ("n2Idx", 12)]%string |}).
Proof. vm_compute. reflexivity. Qed.

(* ================================================================== *)
(** * Further properties of the engine *)
(* ================================================================== *)

(** ** The geometry of a match *)

Lemma pivots_bounds (candles : list Candle) (lookback : nat) (highs lows : list nat) :
  findPivots candles lookback = Ok (highs, lows) ->
  (forall x, In x highs -> lookback <= x < length candles - lookback) /\
  (forall x, In x lows -> lookback <= x < length candles - lookback).
Proof.
  rewrite findPivots_filter. intros E. injection E as <- <-.
  split; intros x Hx; apply in_pivots in Hx; lia.
Qed.

(** Two entries of a pivot list with a pivot of the other kind strictly
    between them. *)
Lemma pair_geometry (others lastP : list nat) (n i h1 h2 l : nat) (rest : list nat) :
  (forall x, In x lastP -> 2 <= x < n - 2) ->
  nth_error lastP (i - 1) = Some h1 ->
  nth_error lastP i = Some h2 ->
  filter (fun x => (h1 <? x) && (x <? h2)) others = l :: rest ->
  h1 < l < h2 /\
  minOf h1 [h2; l] = h1 /\ maxOf h1 [h2; l] = h2 /\
  2 <= h1 /\ h1 + 2 <= h2 /\ h2 + 2 < n.
Proof.
  intros Hb E1 E2 Ef.
  assert (Hl : In l (filter (fun x => (h1 <? x) && (x <? h2)) others))
    by (rewrite Ef; now left).
  apply filter_In in Hl. destruct Hl as [_ Hl]. apply between_true in Hl.
  pose proof (Hb h1 (nth_error_In _ _ E1)) as B1.
  pose proof (Hb h2 (nth_error_In _ _ E2)) as B2.
  unfold minOf, maxOf. cbn [fold_left]. lia.
Qed.

(** Three consecutive entries of a sorted pivot list with at least two
    pivots of the other kind strictly between the outer two. *)
Lemma group_geometry (others lastP : list nat) (n i ls head rs n1 n2 : nat)
    (mid : list nat) :
  StronglySorted lt lastP ->
  (forall x, In x lastP -> 2 <= x < n - 2) ->
  nth_error lastP i = Some ls ->
  nth_error lastP (i + 1) = Some head ->
  nth_error lastP (i + 2) = Some rs ->
  filter (fun x => (ls <? x) && (x <? rs)) others = n1 :: mid ++ [n2] ->
  minOf ls [head; rs; n1; n2] = ls /\ maxOf ls [head; rs; n1; n2] = rs /\
  2 <= ls /\ ls + 2 <= rs /\ rs + 2 < n.
Proof.
  intros Hs Hb E1 E2 E3 Ef.
  pose proof (sorted_nth lt lastP Hs i (i + 1) ls head ltac:(lia) E1 E2) as H12.
  pose proof (sorted_nth lt lastP Hs (i + 1) (i + 2) head rs ltac:(lia) E2 E3) as H23.
  assert (Hn1 : In n1 (filter (fun x => (ls <? x) && (x <? rs)) others))
    by (rewrite Ef; now left).
  assert (Hn2 : In n2 (filter (fun x => (ls <? x) && (x <? rs)) others))
    by (rewrite Ef; right; apply in_or_app; right; now left).
  apply filter_In in Hn1, Hn2.
  destruct Hn1 as [_ Hn1]. destruct Hn2 as [_ Hn2].
  apply between_true in Hn1, Hn2.
  pose proof (Hb ls (nth_error_In _ _ E1)) as B1.
  pose proof (Hb rs (nth_error_In _ _ E3)) as B3.
  unfold minOf, maxOf. cbn [fold_left]. lia.
Qed.

Lemma sliceLast_bounds (k n : nat) (xs : list nat) :
  (forall x, In x xs -> 2 <= x < n - 2) ->
  forall x, In x (sliceLast k xs) -> 2 <= x < n - 2.
Proof. intros H x Hx. apply H. eapply sliceLast_In; exact Hx. Qed.

(** ** The double-top and double-bottom scans *)

Lemma mTopAt_iff (candles : list Candle) (lows lastHighs : list nat) (i : nat)
    (p : Pattern) :
  mTopAt candles lows lastHighs i = Some p <->
  exists h1 h2 l,
    TopPairAt candles lows lastHighs i h1 h2 l /\
    p = {| type := "M-top";
           indices := [("h1Idx", h1); ("h2Idx", h2); ("lIdx", l)]%string |}.
Proof.
  unfold mTopAt, TopPairAt, DoubleTopPair. split.
  - destruct (nth_error lastHighs (i - 1)) as [h1|]; [|discriminate].
    destruct (nth_error lastHighs i) as [h2|]; [|discriminate].
    destruct (filter _ lows) as [|l rest] eqn:Ef; [discriminate|].
    cbv zeta.
    destruct (approxEqual _ _ 0.015) eqn:A; [|discriminate]. cbn [negb].
    destruct (_ <? 0.01)%float eqn:D; [discriminate|].
    intros E. injection E as <-. exists h1, h2, l.
    split; [|reflexivity].
    split; [reflexivity|]. split; [reflexivity|].
    split; [now exists rest|]. now split.
  - intros (h1 & h2 & l & (E1 & E2 & [rest Ef] & A & D) & ->).
    rewrite E1, E2, Ef. cbv zeta. rewrite A. cbn [negb]. now rewrite D.
Qed.

Lemma invertedMAt_iff (candles : list Candle) (highs lastLows : list nat) (i : nat)
    (p : Pattern) :
  invertedMAt candles highs lastLows i = Some p <->
  exists l1 l2 h,
    BottomPairAt candles highs lastLows i l1 l2 h /\
    p = {| type := "Inverted M";
           indices := [("l1Idx", l1); ("l2Idx", l2); ("hIdx", h)]%string |}.
Proof.
  unfold invertedMAt, BottomPairAt, DoubleBottomPair. split.
  - destruct (nth_error lastLows (i - 1)) as [l1|]; [|discriminate].
    destruct (nth_error lastLows i) as [l2|]; [|discriminate].
    destruct (filter _ highs) as [|h rest] eqn:Ef; [discriminate|].
    cbv zeta.
    destruct (approxEqual _ _ 0.015) eqn:A; [|discriminate]. cbn [negb].
    destruct (_ <? 0.01)%float eqn:D; [discriminate|].
    intros E. injection E as <-. exists l1, l2, h.
    split; [|reflexivity].
    split; [reflexivity|]. split; [reflexivity|].
    split; [now exists rest|]. now split.
  - intros (l1 & l2 & h & (E1 & E2 & [rest Ef] & A & D) & ->).
    rewrite E1, E2, Ef. cbv zeta. rewrite A. cbn [negb]. now rewrite D.
Qed.



(** X2.  Whenever [detectInvertedM] returns a match, it is an "Inverted M"
    on two adjacent entries [l1Idx], [l2Idx] of the last four low pivots
    that pass every test of the code: a high pivot lies strictly between
    them, of which [hIdx] is the first; the two lows pass the tolerance
    test at 0.015; and the rise from the lower of them to the high of
    [hIdx] is not below 0.01 of it. *)
Theorem detectInvertedM_sound (candles : list Candle) (p : Pattern) :
  detectInvertedM candles = Ok (Some p) ->
  exists highs lows i l1 l2 h,
    findPivots candles 2 = Ok (highs, lows) /\
    1 <= i /\
    BottomPairAt candles highs (sliceLast 4 lows) i l1 l2 h /\
    l1 < h < l2 /\
    p = {| type := "Inverted M";
           indices := [("l1Idx", l1); ("l2Idx", l2); ("hIdx", h)]%string |}.
Proof.
  pose proof (findPivots_filter candles 2) as E.
  destruct (pivots_bounds _ _ _ _ E) as [Hbh Hbl].
  rewrite (detectInvertedM_scan _ _ _ E).
  destruct (_ || _); [discriminate|].
  intros H. injection H as H.
  pose proof (firstMatch_downTo
                (invertedMAt candles
                   (filter (isHighAt candles 2) (seq 2 (length candles - 2 - 2)))
                   (sliceLast 4
                      (filter (isLowAt candles 2) (seq 2 (length candles - 2 - 2)))))
                1
                (length (sliceLast 4
                   (filter (isLowAt candles 2) (seq 2 (length candles - 2 - 2)))) - 2))
    as F.
  rewrite H in F. destruct F as (i & Hi & Hs & _).
  apply invertedMAt_iff in Hs. destruct Hs as (l1 & l2 & h & P & ->).
  destruct P as (E1 & E2 & [rest Ef] & A & D).
  destruct (pair_geometry _ _ (length candles) i l1 l2 h rest
              (sliceLast_bounds 4 _ _ Hbl) E1 E2 Ef) as (Hb & _).
  do 2 eexists. exists i, l1, l2, h.
  split; [exact E|]. split; [lia|].
  split; [|split; [exact Hb|reflexivity]].
  split; [exact E1|]. split; [exact E2|]. split; [now exists rest|]. now split.
Qed.

Lemma detectInvertedM_sound_witness :
  detectInvertedM twoPeaksSeries =
    Ok (Some {| type := "Inverted M";
                indices := [("l1Idx", 3); ("l2Idx", 11); ("hIdx", 5)]%string |}) /\
  exists highs lows i l1 l2 h,
    findPivots twoPeaksSeries 2 = Ok (highs, lows) /\
    1 <= i /\
    BottomPairAt twoPeaksSeries highs (sliceLast 4 lows) i l1 l2 h /\
    l1 < h < l2 /\
    {| type := "Inverted M";
       indices := [("l1Idx", 3); ("l2Idx", 11); ("hIdx", 5)]%string |} =
    {| type := "Inverted M";
       indices := [("l1Idx", l1); ("l2Idx", l2); ("hIdx", h)]%string |}.
Proof.
  assert (E : detectInvertedM twoPeaksSeries =
              Ok (Some {| type := "Inverted M";
                          indices := [("l1Idx", 3); ("l2Idx", 11);
                                      ("hIdx", 5)]%string |}))
    by (vm_compute; reflexivity).
  split; [exact E|].
  exact (detectInvertedM_sound twoPeaksSeries _ E).
Defined.

(** ** The inverse head-and-shoulders scan *)

Lemma inverseHeadAndShouldersAt_iff (candles : list Candle)
    (highs lastLows : list nat) (i : nat) (p : Pattern) :
  inverseHeadAndShouldersAt candles highs lastLows i = Some p <->
  exists ls head rs n1 n2,
    InverseGroupAt candles highs lastLows i ls head rs n1 n2 /\
    p = {| type := "Inverse Head & Shoulders";
           indices := [("lsIdx", ls); ("headIdx", head); ("rsIdx", rs);
                       ("n1Idx", n1); ("n2Idx", n2)]%string |}.
Proof.
  unfold inverseHeadAndShouldersAt, InverseGroupAt, InverseHeadAndShouldersGroup.
  split.
  - destruct (nth_error lastLows i) as [ls|]; [|discriminate].
    destruct (nth_error lastLows (i + 1)) as [head|]; [|discriminate].
    destruct (nth_error lastLows (i + 2)) as [rs|]; [|discriminate].
    cbv zeta.
    destruct (_ <? _ * 0.99)%float eqn:G1; [|discriminate].
    destruct (_ <? _ * 0.99)%float eqn:G2 in |- *; [|discriminate].
    cbn [andb negb].
    destruct (approxEqual _ _ 0.02) eqn:A1; [|discriminate].
    cbn [negb].
    destruct (length _ <? 2) eqn:Elen; [discriminate|].
    apply Nat.ltb_ge in Elen.
    destruct (nth_error _ 0) as [n1|] eqn:F1; [|discriminate].
    destruct (nth_error _ (_ - 1)) as [n2|] eqn:F2; [|discriminate].
    destruct (approxEqual _ _ 0.02) eqn:A2 in |- *; [|discriminate].
    cbn [negb]. intros E. injection E as <-.
    exists ls, head, rs, n1, n2.
    split; [|reflexivity].
    repeat (split; [first [reflexivity|assumption]|]).
    split; [|exact A2].
    exact (two_ends _ _ _ Elen F1 F2).
  - intros (ls & head & rs & n1 & n2 & (E1 & E2 & E3 & G1 & G2 & A1 & [mid Ef] & A2) & ->).
    rewrite E1, E2, E3. cbv zeta. rewrite G1, G2, A1, Ef. cbn [andb negb].
    destruct (ends_nth n1 n2 mid) as (F1 & F2 & Hlen).
    apply Nat.ltb_ge in Hlen. rewrite Hlen, F1, F2, A2. reflexivity.
Qed.

Lemma InverseGroupAt_matches (candles : list Candle) (highs lastLows : list nat)
    (i ls head rs n1 n2 : nat) :
  InverseGroupAt candles highs lastLows i ls head rs n1 n2 ->
  i + 2 < length lastLows /\ 2 <= length highs /\
  inverseHeadAndShouldersAt candles highs lastLows i <> None.
Proof.
  intros G. split; [|split].
  - destruct G as (_ & _ & E3 & _).
    apply nth_error_Some. rewrite E3. discriminate.
  - destruct G as (_ & _ & _ & _ & _ & _ & [mid Ef] & _).
    pose proof (filter_length_le (fun x => (ls <? x) && (x <? rs)) highs) as Hle.
    rewrite Ef in Hle. cbn [length] in Hle. rewrite length_app in Hle.
    cbn [length] in Hle. lia.
  - intros Hnone.
    assert (H : inverseHeadAndShouldersAt candles highs lastLows i =
                Some {| type := "Inverse Head & Shoulders";
                        indices := [("lsIdx", ls); ("headIdx", head); ("rsIdx", rs);
                                    ("n1Idx", n1); ("n2Idx", n2)]%string |}).
    { apply inverseHeadAndShouldersAt_iff. exists ls, head, rs, n1, n2. now split. }
    congruence.
Qed.

(** X3.  [detectInverseHeadAndShoulders] never faults and scans the groups
    of three consecutive entries of the last six low pivots, most recent
    group first.  It returns the first group whose head's low is strictly
    below 0.99 times each shoulder's low, whose shoulders pass the 2%
    tolerance test, which has at least two high pivots strictly between
    the shoulders, and whose first and last such highs pass the 2%
    tolerance test; it returns [null] exactly when no group of the last
    six low pivots is valid. *)
Theorem detectInverseHeadAndShoulders_first_group (candles : list Candle) :
  exists highs lows r,
    findPivots candles 2 = Ok (highs, lows) /\
    detectInverseHeadAndShoulders candles = Ok r /\
    match r with
    | Some p =>
        exists i ls head rs n1 n2,
          InverseGroupAt candles highs (sliceLast 6 lows) i ls head rs n1 n2 /\
          p = {| type := "Inverse Head & Shoulders";
                 indices := [("lsIdx", ls); ("headIdx", head); ("rsIdx", rs);
                             ("n1Idx", n1); ("n2Idx", n2)]%string |} /\
          forall i' ls' head' rs' n1' n2',
            i < i' ->
            ~ InverseGroupAt candles highs (sliceLast 6 lows) i' ls' head' rs' n1' n2'
    | None =>
        forall i ls head rs n1 n2,
          ~ InverseGroupAt candles highs (sliceLast 6 lows) i ls head rs n1 n2
    end.
Proof.
  pose proof (findPivots_filter candles 2) as E.
  eexists. eexists. eexists. split; [exact E|].
  split; [exact (detectInverseHeadAndShoulders_scan _ _ _ E)|].
  set (highs := filter (isHighAt candles 2) _).
  set (lows := filter (isLowAt candles 2) _).
  destruct ((length lows <? 3) || (length highs <? 2)) eqn:C1.
  { intros i ls head rs n1 n2 G.
    destruct (InverseGroupAt_matches _ _ _ _ _ _ _ _ _ G) as (Hi & Hl & _).
    rewrite sliceLast_length in Hi.
    apply orb_true_iff in C1. rewrite !Nat.ltb_lt in C1. lia. }
  destruct (length (sliceLast 6 lows) <? 3) eqn:C2.
  { intros i ls head rs n1 n2 G.
    destruct (InverseGroupAt_matches _ _ _ _ _ _ _ _ _ G) as (Hi & _ & _).
    apply Nat.ltb_lt in C2. lia. }
  apply Nat.ltb_ge in C2.
  pose proof (firstMatch_downTo
                (inverseHeadAndShouldersAt candles highs (sliceLast 6 lows)) 0
                (length (sliceLast 6 lows) - 3)) as F.
  destruct (firstMatch _ _) as [p|].
  - destruct F as (i & Hi & Hs & Hlater).
    apply inverseHeadAndShouldersAt_iff in Hs.
    destruct Hs as (ls & head & rs & n1 & n2 & G & ->).
    exists i, ls, head, rs, n1, n2. split; [exact G|]. split; [reflexivity|].
    intros i' ls' head' rs' n1' n2' Hlt G'.
    destruct (InverseGroupAt_matches _ _ _ _ _ _ _ _ _ G') as (Hi' & _ & Hne).
    apply Hne, Hlater. lia.
  - intros i ls head rs n1 n2 G.
    destruct (InverseGroupAt_matches _ _ _ _ _ _ _ _ _ G) as (Hi & _ & Hne).
    apply Hne, F. lia.
Qed.

(** ** The span of a match *)

Lemma detectMTop_span (candles : list Candle) (p : Pattern) :
  detectMTop candles = Ok (Some p) ->
  type p = "M-top"%string /\ exists a b, MatchSpan candles p a b.
Proof.
  pose proof (findPivots_filter candles 2) as E.
  destruct (pivots_sorted _ _ _ _ E) as [Hsh Hsl].
  destruct (pivots_bounds _ _ _ _ E) as [Hbh Hbl].
  rewrite (detectMTop_scan _ _ _ E).
  destruct (_ || _); [discriminate|].
  intros H. injection H as H.
  pose proof (firstMatch_downTo
                (mTopAt candles
                   (filter (isLowAt candles 2) (seq 2 (length candles - 2 - 2)))
                   (sliceLast 4
                      (filter (isHighAt candles 2) (seq 2 (length candles - 2 - 2)))))
                1
                (length (sliceLast 4
                   (filter (isHighAt candles 2) (seq 2 (length candles - 2 - 2)))) - 2))
    as F.
  rewrite H in F. destruct F as (i & Hi & Hs & _).
  apply mTopAt_iff in Hs.
  destruct Hs as (h1 & h2 & l & (E1 & E2 & [rest Ef] & _) & ->).
  split; [reflexivity|].
  destruct (pair_geometry _ _ (length candles) i h1 h2 l rest
              (sliceLast_bounds 4 _ _ Hbh) E1 E2 Ef)
    as (_ & G1 & G2 & G3 & G4 & G5).
  exists h1, h2, [h2; l]. repeat (split; [first [reflexivity|assumption]|]).
  assumption.
Qed.

Lemma detectInvertedM_span (candles : list Candle) (p : Pattern) :
  detectInvertedM candles = Ok (Some p) ->
  type p = "Inverted M"%string /\ exists a b, MatchSpan candles p a b.
Proof.
  pose proof (findPivots_filter candles 2) as E.
  destruct (pivots_sorted _ _ _ _ E) as [Hsh Hsl].
  destruct (pivots_bounds _ _ _ _ E) as [Hbh Hbl].
  rewrite (detectInvertedM_scan _ _ _ E).
  destruct (_ || _); [discriminate|].
  intros H. injection H as H.
  pose proof (firstMatch_downTo
                (invertedMAt candles
                   (filter (isHighAt candles 2) (seq 2 (length candles - 2 - 2)))
                   (sliceLast 4
                      (filter (isLowAt candles 2) (seq 2 (length candles - 2 - 2)))))
                1
                (length (sliceLast 4
                   (filter (isLowAt candles 2) (seq 2 (length candles - 2 - 2)))) - 2))
    as F.
  rewrite H in F. destruct F as (i & Hi & Hs & _).
  apply invertedMAt_iff in Hs.
  destruct Hs as (l1 & l2 & h & (E1 & E2 & [rest Ef] & _) & ->).
  split; [reflexivity|].
  destruct (pair_geometry _ _ (length candles) i l1 l2 h rest
              (sliceLast_bounds 4 _ _ Hbl) E1 E2 Ef)
    as (_ & G1 & G2 & G3 & G4 & G5).
  exists l1, l2, [l2; h]. repeat (split; [first [reflexivity|assumption]|]).
  assumption.
Qed.

Lemma detectHeadAndShoulders_span (candles : list Candle) (p : Pattern) :
  detectHeadAndShoulders candles = Ok (Some p) ->
  type p = "Head & Shoulders"%string /\ exists a b, MatchSpan candles p a b.
Proof.
  pose proof (findPivots_filter candles 2) as E.
  destruct (pivots_sorted _ _ _ _ E) as [Hsh Hsl].
  destruct (pivots_bounds _ _ _ _ E) as [Hbh Hbl].
  rewrite (detectHeadAndShoulders_scan _ _ _ E).
  destruct (_ || _); [discriminate|].
  destruct (_ <? 3); [discriminate|].
  intros H. injection H as H.
  apply firstMatch_some in H. destruct H as (i & _ & Hs).
  apply headAndShouldersAt_iff in Hs.
  destruct Hs as (ls & head & rs & n1 & n2 & (E1 & E2 & E3 & _ & _ & _ & [mid Ef] & _) & ->).
  split; [reflexivity|].
  destruct (group_geometry _ _ (length candles) i ls head rs n1 n2 mid
              (skipn_sorted lt _ _ Hsh) (sliceLast_bounds 6 _ _ Hbh) E1 E2 E3 Ef)
    as (G1 & G2 & G3 & G4 & G5).
  exists ls, rs, [head; rs; n1; n2].
  repeat (split; [first [reflexivity|assumption]|]).
  assumption.
Qed.

Lemma detectInverseHeadAndShoulders_span (candles : list Candle) (p : Pattern) :
  detectInverseHeadAndShoulders candles = Ok (Some p) ->
  type p = "Inverse Head & Shoulders"%string /\ exists a b, MatchSpan candles p a b.
Proof.
  pose proof (findPivots_filter candles 2) as E.
  destruct (pivots_sorted _ _ _ _ E) as [Hsh Hsl].
  destruct (pivots_bounds _ _ _ _ E) as [Hbh Hbl].
  rewrite (detectInverseHeadAndShoulders_scan _ _ _ E).
  destruct (_ || _); [discriminate|].
  destruct (_ <? 3); [discriminate|].
  intros H. injection H as H.
  apply firstMatch_some in H. destruct H as (i & _ & Hs).
  apply inverseHeadAndShouldersAt_iff in Hs.
  destruct Hs as (ls & head & rs & n1 & n2 & (E1 & E2 & E3 & _ & _ & _ & [mid Ef] & _) & ->).
  split; [reflexivity|].
  destruct (group_geometry _ _ (length candles) i ls head rs n1 n2 mid
              (skipn_sorted lt _ _ Hsl) (sliceLast_bounds 6 _ _ Hbl) E1 E2 E3 Ef)
    as (G1 & G2 & G3 & G4 & G5).
  exists ls, rs, [head; rs; n1; n2].
  repeat (split; [first [reflexivity|assumption]|]).
  assumption.
Qed.

(** ** What the gate emits *)

Lemma gate_emits (toISOString : Z -> string) (candles : list Candle)
    (tfLabel : string) (dayTrend weekTrend : Trend) (s : Signal) :
  detectPatternWithConfluence toISOString candles tfLabel dayTrend weekTrend =
    Ok (Some s) ->
  exists dir p,
    s = buildPatternSignal toISOString dir tfLabel p candles /\
    ((dir = "bearish"%string /\
      trend dayTrend = "bearish"%string /\ trend weekTrend = "bearish"%string /\
      (detectMTop candles = Ok (Some p) \/
       detectHeadAndShoulders candles = Ok (Some p))) \/
     (dir = "bullish"%string /\
      trend dayTrend = "bullish"%string /\ trend weekTrend = "bullish"%string /\
      (detectInvertedM candles = Ok (Some p) \/
       detectInverseHeadAndShoulders candles = Ok (Some p)))).
Proof.
  destruct (detectors_total candles) as (mTop & invM & hs & invHs & E1 & E2 & E3 & E4).
  unfold detectPatternWithConfluence. rewrite E1, E2, E3, E4. cbn [bind].
  destruct (String.eqb_spec (trend dayTrend) "bearish") as [Hd|Hd];
    destruct (String.eqb_spec (trend weekTrend) "bearish") as [Hw|Hw];
    cbn [andb].
  - destruct mTop as [p|]; cbn [orPattern isPattern returnSignal].
    + intros H. injection H as <-. exists "bearish"%string, p.
      split; [reflexivity|]. left. repeat split; try assumption. now left.
    + destruct hs as [p|]; cbn [isPattern returnSignal].
      * intros H. injection H as <-. exists "bearish"%string, p.
        split; [reflexivity|]. left. repeat split; try assumption. now right.
      * rewrite Hd. change ("bearish" =? "bullish")%string with false.
        cbn [andb]. discriminate.
  - rewrite Hd. change ("bearish" =? "bullish")%string with false.
    cbn [andb]. discriminate.
  - rewrite Hw. change ("bearish" =? "bullish")%string with false.
    rewrite andb_false_r. cbn [andb]. discriminate.
  - destruct (String.eqb_spec (trend dayTrend) "bullish") as [Hd'|Hd'];
      destruct (String.eqb_spec (trend weekTrend) "bullish") as [Hw'|Hw'];
      cbn [andb]; try discriminate.
    destruct invM as [p|]; cbn [orPattern isPattern returnSignal].
    + intros H. injection H as <-. exists "bullish"%string, p.
      split; [reflexivity|]. right. repeat split; try assumption. now left.
    + destruct invHs as [p|]; cbn [isPattern returnSignal]; [|discriminate].
      intros H. injection H as <-. exists "bullish"%string, p.
      split; [reflexivity|]. right. repeat split; try assumption. now right.
Qed.

Lemma gate_silent (toISOString : Z -> string) (candles : list Candle)
    (tfLabel : string) (dayTrend weekTrend : Trend) :
  detectPatternWithConfluence toISOString candles tfLabel dayTrend weekTrend = Ok None \/
  exists s,
    detectPatternWithConfluence toISOString candles tfLabel dayTrend weekTrend =
      Ok (Some s).
Proof.
  destruct (detectors_total candles) as (mTop & invM & hs & invHs & E1 & E2 & E3 & E4).
  unfold detectPatternWithConfluence. rewrite E1, E2, E3, E4. cbn [bind].
  destruct (_ && isPattern (orPattern mTop hs)) eqn:B1.
  - apply andb_true_iff in B1. destruct B1 as [_ B1].
    destruct (orPattern mTop hs) as [p|]; [|discriminate]. right. eexists. reflexivity.
  - destruct (_ && isPattern (orPattern invM invHs)) eqn:B2; [|now left].
    apply andb_true_iff in B2. destruct B2 as [_ B2].
    destruct (orPattern invM invHs) as [p|]; [|discriminate]. right. eexists. reflexivity.
Qed.

Lemma buildPatternSignal_fields (toISOString : Z -> string) (dir tfLabel : string)
    (p : Pattern) (candles : list Candle) :
  direction (buildPatternSignal toISOString dir tfLabel p candles) = dir /\
  pattern (buildPatternSignal toISOString dir tfLabel p candles) = type p /\
  timeframe (buildPatternSignal toISOString dir tfLabel p candles) = tfLabel.
Proof.
  unfold buildPatternSignal.
  destruct (map snd (indices p)); repeat split; reflexivity.
Qed.

(** X4.  Whenever the gate emits a signal, the signal carries the given
    timeframe label and its direction is the common direction of the two
    trends; a bearish signal is an "M-top" or a "Head & Shoulders", a
    bullish one an "Inverted M" or an "Inverse Head & Shoulders": no
    bullish pattern is ever reported under bearish trends, nor the
    reverse. *)
Theorem signal_agrees_with_trends (toISOString : Z -> string)
    (candles : list Candle) (tfLabel : string) (dayTrend weekTrend : Trend)
    (s : Signal) :
  detectPatternWithConfluence toISOString candles tfLabel dayTrend weekTrend =
    Ok (Some s) ->
  timeframe s = tfLabel /\
  trend dayTrend = direction s /\ trend weekTrend = direction s /\
  ((direction s = "bearish"%string /\
    (pattern s = "M-top"%string \/ pattern s = "Head & Shoulders"%string)) \/
   (direction s = "bullish"%string /\
    (pattern s = "Inverted M"%string \/
     pattern s = "Inverse Head & Shoulders"%string))).
Proof.
  intros H. destruct (gate_emits _ _ _ _ _ _ H) as (dir & p & -> & Hc).
  destruct (buildPatternSignal_fields toISOString dir tfLabel p candles)
    as (Fd & Fp & Ft).
  rewrite Fd, Fp, Ft. split; [reflexivity|].
  destruct Hc as [(-> & Hd & Hw & Hp)|(-> & Hd & Hw & Hp)].
  - split; [exact Hd|]. split; [exact Hw|]. left. split; [reflexivity|].
    destruct Hp as [Hp|Hp].
    + left. exact (proj1 (detectMTop_span _ _ Hp)).
    + right. exact (proj1 (detectHeadAndShoulders_span _ _ Hp)).
  - split; [exact Hd|]. split; [exact Hw|]. right. split; [reflexivity|].
    destruct Hp as [Hp|Hp].
    + left. exact (proj1 (detectInvertedM_span _ _ Hp)).
    + right. exact (proj1 (detectInverseHeadAndShoulders_span _ _ Hp)).
Qed.

Lemma detected_span (candles : list Candle) (p : Pattern) :
  detectMTop candles = Ok (Some p) \/
  detectHeadAndShoulders candles = Ok (Some p) \/
  detectInvertedM candles = Ok (Some p) \/
  detectInverseHeadAndShoulders candles = Ok (Some p) ->
  exists a b, MatchSpan candles p a b.
Proof.
  intros [H|[H|[H|H]]].
  - exact (proj2 (detectMTop_span _ _ H)).
  - exact (proj2 (detectHeadAndShoulders_span _ _ H)).
  - exact (proj2 (detectInvertedM_span _ _ H)).
  - exact (proj2 (detectInverseHeadAndShoulders_span _ _ H)).
Qed.

Lemma gate_span (toISOString : Z -> string) (candles : list Candle)
    (tfLabel : string) (dayTrend weekTrend : Trend) (s : Signal) :
  detectPatternWithConfluence toISOString candles tfLabel dayTrend weekTrend =
    Ok (Some s) ->
  exists dir p a b,
    s = buildPatternSignal toISOString dir tfLabel p candles /\
    MatchSpan candles p a b.
Proof.
  intros H. destruct (gate_emits _ _ _ _ _ _ H) as (dir & p & Hs & Hc).
  assert (Hd : exists a b, MatchSpan candles p a b).
  { apply detected_span.
    destruct Hc as [(_ & _ & _ & [Hp|Hp])|(_ & _ & _ & [Hp|Hp])]; tauto. }
  destruct Hd as (a & b & Hab). now exists dir, p, a, b.
Qed.

(** X5.  Whenever the gate emits a signal, its window is present at both
    ends: [from] is the instant of a candle [a] and [to] the instant of a
    later candle [b] of the series, at least two positions apart, both
    with a full pivot window around them; in a time-ordered series [from]
    is not later than [to]. *)
Theorem signal_window (toISOString : Z -> string) (candles : list Candle)
    (tfLabel : string) (dayTrend weekTrend : Trend) (s : Signal) :
  detectPatternWithConfluence toISOString candles tfLabel dayTrend weekTrend =
    Ok (Some s) ->
  exists a b first last,
    2 <= a /\ a + 2 <= b /\ b + 2 < length candles /\
    nth_error candles a = Some first /\
    nth_error candles b = Some last /\
    from s = Some (toISOString (time first)) /\
    to s = Some (toISOString (time last)) /\
    (StronglySorted (fun x y => (time x <= time y)%Z) candles ->
     (time first <= time last)%Z).
Proof.
  intros H.
  destruct (gate_span _ _ _ _ _ _ H)
    as (dir & p & a & b & -> & vs & Hv & Hmin & Hmax & Ha & Hab & Hb).
  destruct (nth_error_inside candles a) as [first Ef]; [lia|].
  destruct (nth_error_inside candles b) as [last El]; [lia|].
  exists a, b, first, last.
  repeat (split; [assumption|]).
  unfold buildPatternSignal. rewrite Hv, Hmin, Hmax, Ef, El. cbn.
  split; [reflexivity|]. split; [reflexivity|].
  intros Hs. apply (time_ordered candles Hs a b); [lia|exact Ef|exact El].
Qed.

(** X6.  On fewer than seven candles (the empty series included) each of
    the four detectors returns [null] and the gate emits no signal,
    whatever the trends. *)
Theorem no_signal_on_short_series (candles : list Candle) :
  length candles < 7 ->
  detectMTop candles = Ok None /\
  detectInvertedM candles = Ok None /\
  detectHeadAndShoulders candles = Ok None /\
  detectInverseHeadAndShoulders candles = Ok None /\
  forall toISOString tfLabel dayTrend weekTrend,
    detectPatternWithConfluence toISOString candles tfLabel dayTrend weekTrend =
      Ok None.
Proof.
  intros Hlen.
  assert (Hno : forall p a b, ~ MatchSpan candles p a b).
  { intros p a b (vs & _ & _ & _ & H2 & Hab & Hb). lia. }
  destruct (detectors_total candles) as (mTop & invM & hs & invHs & E1 & E2 & E3 & E4).
  split; [|split; [|split; [|split]]].
  - destruct mTop as [p|]; [|exact E1].
    destruct (proj2 (detectMTop_span _ _ E1)) as (a & b & Hab).
    destruct (Hno _ _ _ Hab).
  - destruct invM as [p|]; [|exact E2].
    destruct (proj2 (detectInvertedM_span _ _ E2)) as (a & b & Hab).
    destruct (Hno _ _ _ Hab).
  - destruct hs as [p|]; [|exact E3].
    destruct (proj2 (detectHeadAndShoulders_span _ _ E3)) as (a & b & Hab).
    destruct (Hno _ _ _ Hab).
  - destruct invHs as [p|]; [|exact E4].
    destruct (proj2 (detectInverseHeadAndShoulders_span _ _ E4)) as (a & b & Hab).
    destruct (Hno _ _ _ Hab).
  - intros toISOString tfLabel dayTrend weekTrend.
    destruct (gate_silent toISOString candles tfLabel dayTrend weekTrend)
      as [H|[s H]]; [exact H|].
    destruct (gate_span _ _ _ _ _ _ H) as (dir & p & a & b & _ & Hab).
    destruct (Hno _ _ _ Hab).
Qed.

(** Eight candles carry a match. *)
Example detectMTop_eight_bars :
  detectMTop eightBarSeries =
  Ok (Some {| type := "M-top";
              indices := [("h1Idx", 2); ("h2Idx", 4); ("lIdx", 3)]%string |}).
Proof. vm_compute. reflexivity. Qed.

Lemma signal_agrees_with_trends_witness :
  detectPatternWithConfluence stamp threeTopsSeries "1h"
    {| trend := "bearish"; reason := "Close < EMA50 < EMA200" |}
    {| trend := "bearish"; reason := "Close < EMA50 < EMA200" |} =
    Ok (Some {| direction := "bearish"; pattern := "M-top"; timeframe := "1h";
                from := Some "3"%string; to := Some "9"%string |}) /\
  ("1h"%string = "1h"%string /\
   "bearish"%string = "bearish"%string /\ "bearish"%string = "bearish"%string /\
   (("bearish"%string = "bearish"%string /\
     ("M-top"%string = "M-top"%string \/ "M-top"%string = "Head & Shoulders"%string)) \/
    ("bearish"%string = "bullish"%string /\
     ("M-top"%string = "Inverted M"%string \/
      "M-top"%string = "Inverse Head & Shoulders"%string)))).
Proof.
  assert (E : detectPatternWithConfluence stamp threeTopsSeries "1h"
                {| trend := "bearish"; reason := "Close < EMA50 < EMA200" |}
                {| trend := "bearish"; reason := "Close < EMA50 < EMA200" |} =
              Ok (Some {| direction := "bearish"; pattern := "M-top";
                          timeframe := "1h";
                          from := Some "3"%string; to := Some "9"%string |}))
    by (vm_compute; reflexivity).
  split; [exact E|].
  exact (signal_agrees_with_trends stamp threeTopsSeries "1h" _ _ _ E).
Defined.

Lemma signal_window_witness :
  detectPatternWithConfluence stamp threeTopsSeries "1h"
    {| trend := "bearish"; reason := "Close < EMA50 < EMA200" |}
    {| trend := "bearish"; reason := "Close < EMA50 < EMA200" |} =
    Ok (Some {| direction := "bearish"; pattern := "M-top"; timeframe := "1h";
                from := Some "3"%string; to := Some "9"%string |}) /\
  exists a b first last,
    2 <= a /\ a + 2 <= b /\ b + 2 < length threeTopsSeries /\
    nth_error threeTopsSeries a = Some first /\
    nth_error threeTopsSeries b = Some last /\
    Some "3"%string = Some (stamp (time first)) /\
    Some "9"%string = Some (stamp (time last)) /\
    (StronglySorted (fun x y => (time x <= time y)%Z) threeTopsSeries ->
     (time first <= time last)%Z).
Proof.
  assert (E : detectPatternWithConfluence stamp threeTopsSeries "1h"
                {| trend := "bearish"; reason := "Close < EMA50 < EMA200" |}
                {| trend := "bearish"; reason := "Close < EMA50 < EMA200" |} =
              Ok (Some {| direction := "bearish"; pattern := "M-top";
                          timeframe := "1h";
                          from := Some "3"%string; to := Some "9"%string |}))
    by (vm_compute; reflexivity).
  split; [exact E|].
  exact (signal_window stamp threeTopsSeries "1h" _ _ _ E).
Defined.

Lemma no_signal_on_short_series_witness :
  length wideBarSeries < 7 /\
  detectMTop wideBarSeries = Ok None /\
  detectInvertedM wideBarSeries = Ok None /\
  detectHeadAndShoulders wideBarSeries = Ok None /\
  detectInverseHeadAndShoulders wideBarSeries = Ok None /\
  forall toISOString tfLabel dayTrend weekTrend,
    detectPatternWithConfluence toISOString wideBarSeries tfLabel dayTrend weekTrend =
      Ok None.
Proof.
  assert (H : length wideBarSeries < 7) by (vm_compute; lia).
  split; [exact H|].
  exact (no_signal_on_short_series wideBarSeries H).
Defined.

(** ** The moving average and the trend verdicts *)

(** X7.  [ema] returns no value when the series is shorter than the
    period, and otherwise one value per position from [period - 1] on:
    [length - period + 1] values. *)
Theorem ema_length (values : list float) (period : nat) :
  length (ema values period) =
  if length values <? period then 0 else length values - period + 1.
Proof.
  destruct (length values <? period) eqn:E.
  - apply Nat.ltb_lt in E. now rewrite ema_short.
  - apply Nat.ltb_ge in E. rewrite (ema_emaSpec _ _ E), length_map, length_seq. lia.
Qed.

Lemma detectTrendHTF_short (candles : list Candle) :
  length candles < 200 -> trend (detectTrendHTF (Some candles)) = "neutral"%string.
Proof.
  intros H. unfold detectTrendHTF.
  destruct (length candles <? 60); [reflexivity|].
  rewrite (ema_short (map close candles) 200) by (rewrite length_map; exact H).
  reflexivity.
Qed.

Lemma detectTrendHTF_long (candles : list Candle) :
  200 <= length candles ->
  trend (detectTrendHTF (Some candles)) = "bullish"%string \/
  trend (detectTrendHTF (Some candles)) = "bearish"%string \/
  trend (detectTrendHTF (Some candles)) = "sideways"%string.
Proof.
  intros H. unfold detectTrendHTF.
  replace (length candles <? 60) with false by (symmetry; apply Nat.ltb_ge; lia).
  replace (length (ema (map close candles) 200) =? 0) with false.
  - cbv zeta. destruct (_ && _); [now left|].
    destruct (_ && _); [right; now left|right; now right].
  - symmetry. apply Nat.eqb_neq.
    rewrite ema_emaSpec, length_map, length_seq by (rewrite length_map; lia). lia.
Qed.

(** X8.  The trend of [detectTrendHTF] is always one of "neutral",
    "bullish", "bearish" and "sideways", and it is "neutral" exactly when
    there is no series or the series has fewer than 200 candles. *)
Theorem detectTrendHTF_verdicts (candles : option (list Candle)) :
  (trend (detectTrendHTF candles) = "neutral"%string \/
   trend (detectTrendHTF candles) = "bullish"%string \/
   trend (detectTrendHTF candles) = "bearish"%string \/
   trend (detectTrendHTF candles) = "sideways"%string) /\
  (trend (detectTrendHTF candles) = "neutral"%string <->
   match candles with
   | None => True
   | Some series => length series < 200
   end).
Proof.
  destruct candles as [series|]; [|split; [now left|split; [trivial|reflexivity]]].
  destruct (Nat.lt_ge_cases (length series) 200) as [Hlt|Hge].
  - pose proof (detectTrendHTF_short series Hlt) as E.
    split; [now left|]. split; [intros _; exact Hlt|intros _; exact E].
  - pose proof (detectTrendHTF_long series Hge) as E.
    split; [now right|].
    split; [|lia].
    intros N. rewrite N in E. destruct E as [E|[E|E]]; discriminate.
Qed.

Lemma gate_neutral (toISOString : Z -> string) (candles : list Candle)
    (tfLabel : string) (dayTrend weekTrend : Trend) :
  trend dayTrend = "neutral"%string \/ trend weekTrend = "neutral"%string ->
  detectPatternWithConfluence toISOString candles tfLabel dayTrend weekTrend = Ok None.
Proof.
  intros Hn.
  destruct (gate_silent toISOString candles tfLabel dayTrend weekTrend)
    as [H|[s H]]; [exact H|].
  destruct (gate_emits _ _ _ _ _ _ H)
    as (dir & p & _ & [(_ & Hd & Hw & _)|(_ & Hd & Hw & _)]);
    destruct Hn as [N|N]; rewrite N in *; discriminate.
Qed.

(** X9.  When the day series or the week series is missing or has fewer
    than 200 candles, the gate fed with the two [detectTrendHTF] verdicts
    emits no signal, whatever the intraday series holds. *)
Theorem no_signal_without_trend_data (toISOString : Z -> string)
    (candles : list Candle) (tfLabel : string) (day week : option (list Candle)) :
  match day with None => True | Some series => length series < 200 end \/
  match week with None => True | Some series => length series < 200 end ->
  detectPatternWithConfluence toISOString candles tfLabel
    (detectTrendHTF day) (detectTrendHTF week) = Ok None.
Proof.
  intros Hshort. apply gate_neutral.
  destruct Hshort as [H|H]; [left|right].
  - destruct day as [series|]; [now apply detectTrendHTF_short|reflexivity].
  - destruct week as [series|]; [now apply detectTrendHTF_short|reflexivity].
Qed.

Lemma no_signal_without_trend_data_witness :
  (match Some (flatSeries 120) with
   | None => True
   | Some series => length series < 200
   end \/
   match Some risingSeries with
   | None => True
   | Some series => length series < 200
   end) /\
  detectPatternWithConfluence stamp threeTopsSeries "1h"
    (detectTrendHTF (Some (flatSeries 120))) (detectTrendHTF (Some risingSeries)) =
    Ok None.
Proof.
  assert (H : match Some (flatSeries 120) with
              | None => True
              | Some series => length series < 200
              end \/
              match Some risingSeries with
              | None => True
              | Some series => length series < 200
              end) by (left; vm_compute; lia).
  split; [exact H|].
  exact (no_signal_without_trend_data stamp threeTopsSeries "1h"
           (Some (flatSeries 120)) (Some risingSeries) H).
Defined.

(** ** The data source *)

Lemma sorted_snoc {A : Type} (R : A -> A -> Prop) (l : list A) (x : A) :
  StronglySorted R l -> (forall y, In y l -> R y x) ->
  StronglySorted R (l ++ [x]).
Proof.
  induction 1 as [|a l Hs IH Ha]; intros Hx; cbn [app].
  - constructor; constructor.
  - constructor.
    + apply IH. intros y Hy. apply Hx. now right.
    + rewrite Forall_forall in *. intros y Hy.
      apply in_app_or in Hy. destruct Hy as [Hy|[<-|[]]].
      * now apply Ha.
      * apply Hx. now left.
Qed.

Lemma sorted_rev {A : Type} (R : A -> A -> Prop) (l : list A) :
  StronglySorted R l -> StronglySorted (fun x y => R y x) (rev l).
Proof.
  induction 1 as [|a l Hs IH Ha]; cbn [rev]; [constructor|].
  apply sorted_snoc; [exact IH|].
  intros y Hy. apply in_rev in Hy. rewrite Forall_forall in Ha. now apply Ha.
Qed.

Lemma sorted_map {A B : Type} (f : A -> B) (R : B -> B -> Prop) (l : list A) :
  StronglySorted (fun x y => R (f x) (f y)) l -> StronglySorted R (map f l).
Proof.
  induction 1 as [|a l Hs IH Ha]; cbn [map]; constructor; [exact IH|].
  rewrite Forall_forall in *. intros y Hy.
  apply in_map_iff in Hy. destruct Hy as (x & <- & Hx). now apply Ha.
Qed.

(** X10.  When the response is not an error, [fetchSeries] fulfils with one
    candle per bar of the response, in reverse order: candle [i] is the
    bar [length - 1 - i].  Hence a response that lists its bars newest
    first yields a time-ordered series, oldest first. *)
Theorem fetchSeries_oldest_first (parseFloat : string -> float) (newDate : string -> Z)
    (symbol interval : string) (data : Td.body) :
  Td.status data <> Some "error"%string ->
  exists candles,
    fetchSeries parseFloat newDate symbol interval data = Series candles /\
    length candles = length (barsOf data) /\
    (forall i,
       nth_error candles i =
       if i <? length (barsOf data)
       then option_map (candleOfValue parseFloat newDate)
              (nth_error (barsOf data) (length (barsOf data) - S i))
       else None) /\
    (StronglySorted
       (fun v w => (newDate (Td.datetime w) <= newDate (Td.datetime v))%Z)
       (barsOf data) ->
     StronglySorted (fun a b => (time a <= time b)%Z) candles).
Proof.
  intros Hst. exists (rev (map (candleOfValue parseFloat newDate) (barsOf data))).
  split; [|split; [|split]].
  - unfold fetchSeries.
    destruct (Td.status data) as [st|]; [|reflexivity].
    destruct (String.eqb_spec st "error") as [->|_]; [congruence|reflexivity].
  - now rewrite length_rev, length_map.
  - intros i. rewrite nth_error_rev, length_map.
    destruct (i <? length (barsOf data)); [apply nth_error_map|reflexivity].
  - intros Hs.
    apply (sorted_rev (fun a b => (time b <= time a)%Z)).
    apply sorted_map. exact Hs.
Qed.

Lemma fetchSeries_oldest_first_witness :
  Td.status sampleBody <> Some "error"%string /\
  exists candles,
    fetchSeries (fun _ => 1%float) sampleDate "EUR/USD" "1h" sampleBody =
      Series candles /\
    length candles = length (barsOf sampleBody) /\
    (forall i,
       nth_error candles i =
       if i <? length (barsOf sampleBody)
       then option_map (candleOfValue (fun _ => 1%float) sampleDate)
              (nth_error (barsOf sampleBody) (length (barsOf sampleBody) - S i))
       else None) /\
    (StronglySorted
       (fun v w => (sampleDate (Td.datetime w) <= sampleDate (Td.datetime v))%Z)
       (barsOf sampleBody) ->
     StronglySorted (fun a b => (time a <= time b)%Z) candles).
Proof.
  assert (H : Td.status sampleBody <> Some "error"%string) by discriminate.
  split; [exact H|].
  exact (fetchSeries_oldest_first (fun _ => 1%float) sampleDate "EUR/USD" "1h"
           sampleBody H).
Defined.

(** The sample response lists its bars newest first, and is fetched as
    the instants 1, 2, 3. *)
Example fetchSeries_sample :
  StronglySorted
    (fun v w => (sampleDate (Td.datetime w) <= sampleDate (Td.datetime v))%Z)
    (barsOf sampleBody) /\
  match fetchSeries (fun _ => 1%float) sampleDate "EUR/USD" "1h" sampleBody with
  | Series candles => map time candles = [1; 2; 3]%Z
  | Rejected _ => False
  end.
Proof.
  split; [|vm_compute; reflexivity].
  repeat constructor; vm_compute; discriminate.
Qed.

(** An error response rejects with the provider's message, or "API error"
    when it gives none. *)
Example fetchSeries_error :
  fetchSeries (fun _ => 1%float) sampleDate "EUR/USD" "1h"
    {| Td.status := Some "error"%string; Td.message := None; Td.values := None |} =
  Rejected "[TD] API error (symbol=EUR/USD, interval=1h)".
Proof. reflexivity. Qed.

(** ** The scan endpoint *)

Section ScanFacts.

Variable toISOString : Z -> string.
Variable fetch : string -> string -> nat -> Fetched.

Lemma last_close_read (candles : list Candle) :
  (length candles =? 0) = false ->
  field candles (length candles - 1) close =
  Ok (priceAt close candles (length candles - 1)).
Proof.
  intros H. apply Nat.eqb_neq in H. apply field_priceAt. lia.
Qed.





(** X12.  When the day, week and 1h fetches succeed and the gate finds a
    signal on the 1h series, the endpoint replies with that signal and the
    1h series' last close, whatever the 4h fetch would return: the 4h
    series is not consulted. *)
Theorem scan_prefers_1h (sym : string) (day week candles : list Candle) (s : Signal) :
  sym <> EmptyString ->
  fetch sym "1day" 500 = Series day ->
  fetch sym "1week" 500 = Series week ->
  fetch sym "1h" 400 = Series candles ->
  detectPatternWithConfluence toISOString candles "1h"
    (detectTrendHTF (Some day)) (detectTrendHTF (Some week)) = Ok (Some s) ->
  scan toISOString fetch (Some sym) =
  Scanned sym (Some (priceAt close candles (length candles - 1)))
    (trend (detectTrendHTF (Some day))) (trend (detectTrendHTF (Some week)))
    (Some s).
Proof.
  intros Hsym Ed Ew Eh Eg.
  destruct (gate_span _ _ _ _ _ _ Eg) as (dir & p & a & b & _ & vs & _ & _ & _ & _ & _ & H8).
  assert (El : (length candles =? 0) = false) by (apply Nat.eqb_neq; lia).
  unfold scan. destruct sym as [|c sym']; [congruence|].
  rewrite Ed, Ew. cbv zeta.
  cbn [PATTERN_TIMEFRAMES scanTimeframes].
  rewrite Eh, El, (last_close_read _ El), Eg. reflexivity.
Qed.



End ScanFacts.


Lemma scan_prefers_1h_witness :
  "EUR/USD"%string <> EmptyString /\
  sampleFetch "EUR/USD" "4h" 400 = Rejected "[TD] down" /\
  scan stamp sampleFetch (Some "EUR/USD"%string) =
  Scanned "EUR/USD"
    (Some (priceAt close threeTopsSeries (length threeTopsSeries - 1)))
    (trend (detectTrendHTF (Some fallingSeries)))
    (trend (detectTrendHTF (Some fallingSeries)))
    (Some {| direction := "bearish"; pattern := "M-top"; timeframe := "1h";
             from := Some "3"%string; to := Some "9"%string |}).
Proof.
  assert (H : "EUR/USD"%string <> EmptyString) by discriminate.
  split; [exact H|]. split; [reflexivity|].
  apply (scan_prefers_1h stamp sampleFetch "EUR/USD" fallingSeries fallingSeries
           threeTopsSeries _ H); vm_compute; reflexivity.
Defined.



(** A missing or empty symbol is answered 400 before any fetch. *)
Example scan_bad_request :
  scan stamp downFetch None = BadRequest /\
  scan stamp sampleFetch (Some EmptyString) = BadRequest.
Proof. split; reflexivity. Qed.

(** ** The dashboard's refresh period *)

Lemma ltb_leb (x y : float) : (x <? y)%float = true -> (x <=? y)%float = true.
Proof.
  rewrite ltb_spec, leb_spec. unfold SFltb, SFleb.
  destruct (SFcompare (Prim2SF x) (Prim2SF y)) as [[| |]|]; congruence.
Qed.

Lemma orElse_number (x d : float) : is_nan d = false -> is_nan (orElse x d) = false.
Proof.
  intros Hd. unfold orElse, truthy.
  destruct (negb (x =? 0)%float); cbn [andb]; [|exact Hd].
  destruct (is_nan x) eqn:N; cbn [negb]; [exact Hd|exact N].
Qed.

(** X15.  Whatever number the refresh field holds (zero, negative, NaN
    or infinite included), the period between full scans is a number not
    below 3600 seconds. *)
Theorem refreshSec_at_least_an_hour (input : float) :
  is_nan (refreshSec input) = false /\
  (MIN_REFRESH_SEC <=? refreshSec input)%float = true.
Proof.
  pose proof (orElse_number input MIN_REFRESH_SEC eq_refl) as Hn.
  unfold refreshSec, max.
  change (is_nan MIN_REFRESH_SEC) with false. rewrite Hn. cbn [orb].
  destruct (MIN_REFRESH_SEC <? orElse input MIN_REFRESH_SEC)%float eqn:L1.
  - split; [exact Hn|now apply ltb_leb].
  - destruct (orElse input MIN_REFRESH_SEC <? MIN_REFRESH_SEC)%float;
      change (get_sign MIN_REFRESH_SEC) with false; cbv iota;
      split; reflexivity.
Qed.

(** The floor on sample inputs. *)
Example refreshSec_samples :
  refreshSec 60 = 3600%float /\ refreshSec 0 = 3600%float /\
  refreshSec nan = 3600%float /\ refreshSec (-5) = 3600%float /\
  refreshSec 7200 = 7200%float.
Proof. repeat split; vm_compute; reflexivity. Qed.

(** ** Pivots of a short series *)

(** X16.  A series with no room for a full window (at most twice the
    lookback candles, the empty series included) has no pivot: both
    arrays are empty and nothing faults. *)
Theorem findPivots_short (candles : list Candle) (lookback : nat) :
  length candles <= 2 * lookback ->
  findPivots candles lookback = Ok ([], []).
Proof.
  intros H. rewrite findPivots_filter.
  replace (length candles - lookback - lookback) with 0 by lia.
  reflexivity.
Qed.

Lemma findPivots_short_witness :
  length wideBarSeries <= 2 * 3 /\ findPivots wideBarSeries 3 = Ok ([], []).
Proof.
  assert (H : length wideBarSeries <= 2 * 3) by (vm_compute; lia).
  split; [exact H|].
  exact (findPivots_short wideBarSeries 3 H).
Defined.
